(** * Payment lifecycle manager of poc-auth-backend

    A shallow embedding of [app/services/geidea_manager.py],
    [app/routers/geidea_router.py], [app/schemas.py] and [app/models.py]:
    the signature engine, the gateway client, the payment table seen through
    its SQLAlchemy session, session creation and webhook reconciliation.

    Conventions.
    - A Python [str] is a Rocq [string] holding its UTF-8 bytes, so
      [.encode("utf-8")] reads the bytes off and concatenation commutes with
      encoding.  A character is a byte that is not a continuation byte
      together with the continuation bytes after it; [len] counts the
      characters.  [str.lower] acts on the ASCII letters and keeps the bytes
      above 127: exact on ASCII text.  The comparisons of [handle_webhook]
      are not affected by the rest of Unicode, since the only characters
      outside ASCII whose lowercase holds an ASCII character are U+0130 ("i"
      and a combining dot) and U+212A ("k"), and neither makes one of the
      status words.  [str.upper], whose result is stored, maps the ASCII
      letters here and every other character through the uppercase mapping
      of the Unicode database, which the [Platform] holds.
    - A Python [float] is a dyadic number, an infinity or a NaN.
    - Values coming from JSON documents are terms of [json].
    - [hashlib.sha256], [hmac] and [base64] are written out, so that a
      signature can be computed.
    - Code that raises is a computation in the monad [M]: a state
      transformer over [World] whose outcome is a value or an exception.
      [World] holds the payments table as committed and as the open session
      sees it, the lines printed and the requests sent.
    - What the surroundings decide during a call (the uuid, the clock, the
      gateway) is an [Env]; what is left open about the Python runtime and
      the libraries is a [Platform]. *)

From Stdlib Require Import ZArith NArith List String Ascii Bool Lia.
From Stdlib Require Import DecimalString DecimalPos DecimalN.
Import ListNotations.
Set Warnings "-register-all".
Open Scope string_scope.
Open Scope list_scope.

Infix "+++" := String.append (right associativity, at level 60).

(** ** Python strings *)

Definition bytes := list N.

Definition encode_utf8 (s : string) : bytes :=
  map N_of_ascii (list_ascii_of_string s).

Definition decode_utf8 (b : bytes) : string :=
  string_of_list_ascii (map ascii_of_N b).

Definition lower_char (c : ascii) : ascii :=
  let n := N_of_ascii c in
  if ((65 <=? n) && (n <=? 90))%N then ascii_of_N (n + 32) else c.

Definition upper_char (c : ascii) : ascii :=
  let n := N_of_ascii c in
  if ((97 <=? n) && (n <=? 122))%N then ascii_of_N (n - 32) else c.

Fixpoint map_string (f : ascii -> ascii) (s : string) : string :=
  match s with
  | EmptyString => EmptyString
  | String c r => String (f c) (map_string f r)
  end.

(** [s.lower()] *)
Definition lower (s : string) : string := map_string lower_char s.

(** The bytes 0x80 to 0xBF continue a character. *)
Definition is_continuation (c : ascii) : bool :=
  let n := N_of_ascii c in ((128 <=? n) && (n <=? 191))%N.

(** [len(s)]: the number of characters *)
Fixpoint py_len (s : string) : nat :=
  match s with
  | EmptyString => 0
  | String c r => ((if is_continuation c then 0 else 1) + py_len r)%nat
  end.

(** The characters of [s], each with its bytes. *)
Fixpoint characters (s : string) : list string :=
  match s with
  | EmptyString => []
  | String c r =>
      let rest := characters r in
      match r, rest with
      | String d _, h :: tl =>
          if is_continuation d then String c h :: tl
          else String c EmptyString :: rest
      | _, _ => String c EmptyString :: rest
      end
  end.

(** [str(n)] for an [int] *)
Definition str_of_Z (z : Z) : string := NilEmpty.string_of_int (Z.to_int z).

Definition str_of_N (n : N) : string := NilEmpty.string_of_uint (N.to_uint n).

Definition is_digit (c : ascii) : bool :=
  let n := N_of_ascii c in ((48 <=? n) && (n <=? 57))%N.

Fixpoint all_digits (s : string) : bool :=
  match s with
  | EmptyString => true
  | String c r => is_digit c && all_digits r
  end.

(** ** hashlib.sha256, hmac and base64, as the signature uses them *)

Module SHA256.
Open Scope N_scope.

Definition mask32 : N := 0xFFFFFFFF.
Definition w32 (x : N) : N := N.land x mask32.
Definition add32 (x y : N) : N := w32 (x + y).
Definition rotr (n x : N) : N :=
  N.lor (N.shiftr x n) (w32 (N.shiftl x (32 - n))).
Definition not32 (x : N) : N := N.lxor x mask32.

Definition Ch (x y z : N) := N.lxor (N.land x y) (N.land (not32 x) z).
Definition Maj (x y z : N) :=
  N.lxor (N.lxor (N.land x y) (N.land x z)) (N.land y z).
Definition Sigma0 x := N.lxor (N.lxor (rotr 2 x) (rotr 13 x)) (rotr 22 x).
Definition Sigma1 x := N.lxor (N.lxor (rotr 6 x) (rotr 11 x)) (rotr 25 x).
Definition sigma0 x := N.lxor (N.lxor (rotr 7 x) (rotr 18 x)) (N.shiftr x 3).
Definition sigma1 x := N.lxor (N.lxor (rotr 17 x) (rotr 19 x)) (N.shiftr x 10).

(** The constants of FIPS 180-4 are fractional bits of roots of the first
    primes; they are computed here rather than copied. *)
Definition is_prime (n : N) : bool :=
  forallb (fun d => negb (n mod N.of_nat d =? 0)) (seq 2 (N.to_nat n - 2)).

Definition primes : list N :=
  filter is_prime (map N.of_nat (seq 2 310)).

(** The largest [r] below 2^k above the start with r^3 <= n. *)
Fixpoint cube_root (k : nat) (n r : N) : N :=
  match k with
  | O => r
  | S k' =>
      let c := r + 2 ^ N.of_nat k' in
      if c * c * c <=? n then cube_root k' n c else cube_root k' n r
  end.

(** The first 32 bits of the fractional part of the cube root of each of
    the first 64 primes. *)
Definition K : list N :=
  Eval vm_compute in
    map (fun p => w32 (cube_root 40 (p * 2 ^ 96) 0)) primes.

(** The first 32 bits of the fractional part of the square root of each
    of the first 8 primes. *)
Definition H0 : list N :=
  Eval vm_compute in
    map (fun p => w32 (N.sqrt (p * 2 ^ 64))) (firstn 8 primes).

(** [x] on [n] bytes, most significant first *)
Fixpoint be_bytes (n : nat) (x : N) : bytes :=
  match n with
  | O => []
  | S n' => N.land (N.shiftr x (8 * N.of_nat n')) 0xFF :: be_bytes n' x
  end.

Definition be_word (b : bytes) : N :=
  fold_left (fun acc x => N.lor (N.shiftl acc 8) x) b 0.

Definition pad (msg : bytes) : bytes :=
  let len := N.of_nat (List.length msg) in
  let zeros := N.to_nat ((119 - len mod 64) mod 64) in
  msg ++ [0x80] ++ repeat 0 zeros ++ be_bytes 8 (8 * len).

Fixpoint chunks (fuel k : nat) (l : list N) : list (list N) :=
  match fuel with
  | O => []
  | S f =>
      match l with
      | [] => []
      | _ => firstn k l :: chunks f k (skipn k l)
      end
  end.

(** The message schedule, latest word first. *)
Fixpoint extend (n : nat) (w : list N) : list N :=
  match n with
  | O => w
  | S n' =>
      let x := add32 (add32 (sigma1 (nth 1 w 0)) (nth 6 w 0))
                     (add32 (sigma0 (nth 14 w 0)) (nth 15 w 0)) in
      extend n' (x :: w)
  end.

Definition schedule (block : bytes) : list N :=
  rev (extend 48 (rev (map be_word (chunks 16 4 block)))).

Definition round (st : list N) (kw : N * N) : list N :=
  match st with
  | [a; b; c; d; e; f; g; h] =>
      let t1 := add32 (add32 (add32 h (Sigma1 e)) (add32 (Ch e f g) (fst kw)))
                      (snd kw) in
      let t2 := add32 (Sigma0 a) (Maj a b c) in
      [add32 t1 t2; a; b; c; add32 d t1; e; f; g]
  | _ => st
  end.

Definition compress (h : list N) (block : bytes) : list N :=
  let st := fold_left round (combine K (schedule block)) h in
  map (fun p => add32 (fst p) (snd p)) (combine h st).

Definition digest (msg : bytes) : bytes :=
  let p := pad msg in
  let h := fold_left compress (chunks (List.length p) 64 p) H0 in
  flat_map (be_bytes 4) h.
End SHA256.

Module HMAC.
Definition block_size : nat := 64.

Definition xor_pad (c : N) (key : bytes) : bytes := map (N.lxor c) key.

(** [hmac.new(key, msg, hashlib.sha256).digest()] *)
Definition hmac_sha256 (key msg : bytes) : bytes :=
  let k := if (block_size <? List.length key)%nat
           then SHA256.digest key else key in
  let k := k ++ repeat 0%N (block_size - List.length k) in
  SHA256.digest (xor_pad 0x5c k ++ SHA256.digest (xor_pad 0x36 k ++ msg)).
End HMAC.

Module Base64.
Definition alphabet : string :=
  "ABCDEFGHIJKLMNOPQRSTUVWXYZabcdefghijklmnopqrstuvwxyz0123456789+/".

Definition sextet (n : N) : N :=
  match String.get (N.to_nat n) alphabet with
  | Some c => N_of_ascii c
  | None => 0%N
  end.

Definition pad_char : N := 61.

(** [base64.b64encode] *)
Fixpoint b64encode (b : bytes) : bytes :=
  match b with
  | [] => []
  | [x] =>
      [sextet (N.shiftr x 2); sextet (N.shiftl (N.land x 3) 4);
       pad_char; pad_char]
  | [x; y] =>
      [sextet (N.shiftr x 2);
       sextet (N.lor (N.shiftl (N.land x 3) 4) (N.shiftr y 4));
       sextet (N.shiftl (N.land y 15) 2); pad_char]
  | x :: y :: z :: rest =>
      sextet (N.shiftr x 2)
      :: sextet (N.lor (N.shiftl (N.land x 3) 4) (N.shiftr y 4))
      :: sextet (N.lor (N.shiftl (N.land y 15) 2) (N.shiftr z 6))
      :: sextet (N.land z 63)
      :: b64encode rest
  end.
End Base64.

(** ** Python floats and the [.2f] format *)

(** [Finite neg m e] is (-1)^neg * m * 2^e. *)
Inductive pyfloat :=
| Finite (neg : bool) (m : N) (e : Z)
| Inf (neg : bool)
| NaN.

(** [x > 0] *)
Definition float_gt0 (x : pyfloat) : bool :=
  match x with
  | Finite false m _ => negb (m =? 0)%N
  | Inf false => true
  | _ => false
  end.

(** [bool(x)] *)
Definition float_truthy (x : pyfloat) : bool :=
  match x with
  | Finite _ m _ => negb (m =? 0)%N
  | _ => true
  end.

(** The number of hundredths nearest to m * 2^e, ties going to the even
    one: the correctly rounded conversion that Python's float formatting
    performs. *)
Definition hundredths (m : N) (e : Z) : N :=
  if (0 <=? e)%Z then (m * 100 * 2 ^ Z.to_N e)%N
  else
    let d := (2 ^ Z.to_N (- e))%N in
    let q := (m * 100 / d)%N in
    let r := (m * 100 mod d)%N in
    if (2 * r <? d)%N then q
    else if (d <? 2 * r)%N then (q + 1)%N
    else if N.even q then q else (q + 1)%N.

Definition digit_char (n : N) : ascii := ascii_of_N (48 + n).

Definition two_digits (n : N) : string :=
  String (digit_char (n / 10)) (String (digit_char (n mod 10)) EmptyString).

Definition sign_prefix (neg : bool) : string := if neg then "-" else "".

(** [f"{x:.2f}"] *)
Definition format_2f (x : pyfloat) : string :=
  match x with
  | Finite neg m e =>
      let c := hundredths m e in
      sign_prefix neg +++ str_of_N (c / 100) +++ "." +++ two_digits (c mod 100)
  | Inf neg => sign_prefix neg +++ "inf"
  | NaN => "nan"
  end.

(** ** JSON values, as [json.loads] and [request.json()] deliver them *)

Inductive json :=
| JNull                                  (* None *)
| JBool (b : bool)
| JInt (z : Z)
| JFloat (x : pyfloat)
| JStr (s : string)
| JArr (l : list json)
| JObj (items : list (string * json)).  (* a dict: its items, keys distinct *)

(** [bool(v)]: what [if v], [not v], [and] and [or] test *)
Definition truthy (v : json) : bool :=
  match v with
  | JNull => false
  | JBool b => b
  | JInt z => negb (z =? 0)%Z
  | JFloat x => float_truthy x
  | JStr s => negb (s =? "")
  | JArr l => match l with [] => false | _ => true end
  | JObj m => match m with [] => false | _ => true end
  end.

(** [d.get(k)] on a dict *)
Fixpoint dict_get (m : list (string * json)) (k : string) : json :=
  match m with
  | [] => JNull
  | (k', v) :: r => if k' =? k then v else dict_get r k
  end.

(** [v == s] for a string literal [s] *)
Definition eq_str (v : json) (s : string) : bool :=
  match v with JStr t => t =? s | _ => false end.

Definition is_none (v : json) : bool :=
  match v with JNull => true | _ => false end.

(** [a or b] *)
Definition py_or (a b : json) : json := if truthy a then a else b.

(** ** Exceptions *)

(** Exceptions raised by the interpreter and the libraries. *)
Inductive lib_error :=
| AttributeError (v : json) (attr : string)  (* v has no attribute attr *)
| JSONDecodeError                            (* resp.json() on a non-JSON body *)
| InterfaceError (v : json)                  (* the driver cannot bind v *)
| IntegrityError (constraint : string)       (* a UNIQUE constraint failed *)
| MultipleResultsFound                       (* scalar_one_or_none() *)
| ValidationError (field : string)           (* pydantic model construction *)
| OverflowError (z : Z).                     (* an int beyond SQLite's INTEGER *)

Inductive exn :=
| HTTPException (status_code : Z) (detail : string)
| ValueError (msg : string)
| LibError (e : lib_error).

(** The integers the SQLite driver binds to a statement: those of 64 bits.
    For another [int] it raises [OverflowError]. *)
Definition fits_int64 (z : Z) : bool :=
  ((- 2 ^ 63 <=? z) && (z <? 2 ^ 63))%Z.

(** What a parameter bound to a statement becomes in a text column. *)
Inductive sql_value :=
| SqlError
| SqlNull
| SqlText (s : string).

(** The parts of the Python runtime and of the libraries that the code
    relies on and that are left open here. *)
Class Platform := {
  (** [str(e)] for an exception raised by a library *)
  lib_error_str : lib_error -> string;
  (** [str(v)] inside an f-string, for a value that is not a [str] *)
  py_str_other : json -> string;
  (** [json.dumps(v)] *)
  json_dumps : json -> string;
  (** how the SQLite driver binds a value that is neither [None] nor a
      [str] to a text column *)
  sqlite_adapt_other : json -> sql_value;
  (** [float(payment.amount)]: the stored REAL read back through the
      [Numeric(10, 2)] result processor as a [Decimal], then as a float *)
  float_of_numeric : pyfloat -> pyfloat;
  (** [ch.upper()] for one character outside ASCII: its uppercase mapping
      in the Unicode database, which can be several characters *)
  unicode_upper : string -> string
}.

(** ** app/models.py *)

Module User.
Record t := mk {
  id : Z;
  email : string;
  hashed_password : string;
  is_active : bool;
  created_at : string
}.
End User.

Module Payment.
Record t := mk {
  id : Z;
  user_id : Z;
  amount : pyfloat;
  currency : string;
  merchant_reference_id : string;
  geidea_order_id : option string;
  geidea_session_id : option string;
  card_token : option string;
  order_payload : option string;
  shipping_address_payload : option string;
  status : string;
  created_at : string
}.

Definition set_status (s : string) (p : t) : t :=
  mk (id p) (user_id p) (amount p) (currency p) (merchant_reference_id p)
     (geidea_order_id p) (geidea_session_id p) (card_token p)
     (order_payload p) (shipping_address_payload p) s (created_at p).

Definition set_geidea_order_id (o : option string) (p : t) : t :=
  mk (id p) (user_id p) (amount p) (currency p) (merchant_reference_id p)
     o (geidea_session_id p) (card_token p)
     (order_payload p) (shipping_address_payload p) (status p) (created_at p).

Definition set_geidea_session_id (o : option string) (p : t) : t :=
  mk (id p) (user_id p) (amount p) (currency p) (merchant_reference_id p)
     (geidea_order_id p) o (card_token p)
     (order_payload p) (shipping_address_payload p) (status p) (created_at p).

Definition set_order_payload (o : option string) (p : t) : t :=
  mk (id p) (user_id p) (amount p) (currency p) (merchant_reference_id p)
     (geidea_order_id p) (geidea_session_id p) (card_token p)
     o (shipping_address_payload p) (status p) (created_at p).

Definition set_shipping_address_payload (o : option string) (p : t) : t :=
  mk (id p) (user_id p) (amount p) (currency p) (merchant_reference_id p)
     (geidea_order_id p) (geidea_session_id p) (card_token p)
     (order_payload p) o (status p) (created_at p).
End Payment.

(** The rows of the [payments] table, oldest first. *)
Definition table := list Payment.t.

Fixpoint distinct (l : list string) : bool :=
  match l with
  | [] => true
  | x :: r => negb (existsb (String.eqb x) r) && distinct r
  end.

Fixpoint distinctZ (l : list Z) : bool :=
  match l with
  | [] => true
  | x :: r => negb (existsb (Z.eqb x) r) && distinctZ r
  end.

Fixpoint somes {A} (l : list (option A)) : list A :=
  match l with
  | [] => []
  | Some x :: r => x :: somes r
  | None :: r => somes r
  end.

(** The constraints of the table: the primary key, and [unique=True] on
    [merchant_reference_id] and on [geidea_order_id] (NULLs do not
    collide). *)
Definition pk_ok (t : table) : bool := distinctZ (map Payment.id t).
Definition merchant_reference_ok (t : table) : bool :=
  distinct (map Payment.merchant_reference_id t).
Definition geidea_order_ok (t : table) : bool :=
  distinct (somes (map Payment.geidea_order_id t)).

(** ** The world a request handler runs in *)

Record http_request := mk_request {
  req_url : string;
  req_headers : list (string * string);
  req_json : json
}.

Record http_response := mk_response {
  resp_status_code : Z;
  resp_text : string;
  resp_json : option json     (* resp.json(); None when it raises *)
}.

(** [await client.post(...)]: httpx.HTTPError, or a response. *)
Inductive post_result :=
| HTTPError (exc : string)
| Response (r : http_response).

(** What the surroundings decide during one call. *)
Record Env := mk_env {
  uuid4 : string;                       (* str(uuid.uuid4()) *)
  utcnow : string;                      (* utcnow().strftime("%Y/%m/%d %H:%M:%S") *)
  server_now : string;                  (* func.now(), the created_at default *)
  post : http_request -> post_result    (* the gateway *)
}.

(** [committed] is the table in the database, [working] the table as the
    open session sees it (with the changes not yet committed), [stdout]
    the lines printed and [outbox] the requests sent, oldest first. *)
Record World := mk_world {
  committed : table;
  working : table;
  stdout : list string;
  outbox : list http_request
}.

Definition world_of (t : table) : World := mk_world t t [] [].

Inductive outcome (A : Type) :=
| Return (a : A)
| Raise (e : exn).
Arguments Return {A} a.
Arguments Raise {A} e.

Definition M (A : Type) : Type := World -> outcome A * World.

Definition ret {A} (a : A) : M A := fun w => (Return a, w).

Definition bind {A B} (c : M A) (k : A -> M B) : M B :=
  fun w =>
    match c w with
    | (Return a, w') => k a w'
    | (Raise e, w') => (Raise e, w')
    end.

Definition raise {A} (e : exn) : M A := fun w => (Raise e, w).

(** [try: c  except Exception as e: h e] *)
Definition try_except {A} (c : M A) (h : exn -> M A) : M A :=
  fun w =>
    match c w with
    | (Return a, w') => (Return a, w')
    | (Raise e, w') => h e w'
    end.

Notation "x <- c ;; k" := (bind c (fun x => k))
  (at level 61, c at next level, right associativity).
Notation "c ;;; k" := (bind c (fun _ => k))
  (at level 61, right associativity).

Definition get_working : M table := fun w => (Return (working w), w).

Definition put_working (t : table) : M unit :=
  fun w => (Return tt, mk_world (committed w) t (stdout w) (outbox w)).

(** [print(line)] *)
Definition print (line : string) : M unit :=
  fun w => (Return tt,
            mk_world (committed w) (working w) (stdout w ++ [line]) (outbox w)).

(** [await db.rollback()] *)
Definition rollback : M unit :=
  fun w => (Return tt,
            mk_world (committed w) (committed w) (stdout w) (outbox w)).

(** The first constraint that a table violates, if any. *)
Definition violated (t : table) : option string :=
  if negb (pk_ok t) then Some "payments.id"
  else if negb (merchant_reference_ok t)
  then Some "payments.merchant_reference_id"
  else if negb (geidea_order_ok t) then Some "payments.geidea_order_id"
  else None.

Definition table_ok (t : table) : bool :=
  match violated t with None => true | Some _ => false end.

(** [await db.commit()]: the pending changes are flushed; the flush
    raises IntegrityError when the table with these changes breaks one of
    its constraints, and the changes stay pending until the rollback. *)
Definition commit : M unit :=
  fun w =>
    match violated (working w) with
    | Some c => (Raise (LibError (IntegrityError c)), w)
    | None =>
        (Return tt,
         mk_world (working w) (working w) (stdout w) (outbox w))
    end.

(** An attribute assignment on the mapped object whose primary key is
    [pid]. *)
Definition update_row (pid : Z) (f : Payment.t -> Payment.t) (t : table) : table :=
  map (fun r => if (Payment.id r =? pid)%Z then f r else r) t.

Definition assign (pid : Z) (f : Payment.t -> Payment.t) : M unit :=
  t <- get_working ;; put_working (update_row pid f t).

(** [result.scalar_one_or_none()] *)
Definition scalar_one_or_none (rows : table) : M (option Payment.t) :=
  match rows with
  | [] => ret None
  | [p] => ret (Some p)
  | _ => raise (LibError MultipleResultsFound)
  end.

(** [v.get(k)]: only a dict has [get] *)
Definition py_get (v : json) (k : string) : M json :=
  match v with
  | JObj m => ret (dict_get m k)
  | _ => raise (LibError (AttributeError v "get"))
  end.

(** [v.lower()]: only a str has [lower] *)
Definition py_lower (v : json) : M string :=
  match v with
  | JStr s => ret (lower s)
  | _ => raise (LibError (AttributeError v "lower"))
  end.

(** [status and status.lower() in words] *)
Definition status_in (status : json) (words : list string) : M bool :=
  if truthy status then
    s <- py_lower status ;; ret (existsb (String.eqb s) words)
  else ret false.

Section Runtime.
Context {platform : Platform}.

(** [f"{v}"] *)
Definition py_str (v : json) : string :=
  match v with
  | JStr s => s
  | _ => py_str_other v
  end.

Definition sqlite_adapt (v : json) : sql_value :=
  match v with
  | JNull => SqlNull
  | JStr s => SqlText s
  | _ => sqlite_adapt_other v
  end.

(** [str(e)]; Starlette renders an HTTPException as "status: detail". *)
Definition exn_str (e : exn) : string :=
  match e with
  | HTTPException c d => str_of_Z c +++ ": " +++ d
  | ValueError m => m
  | LibError l => lib_error_str l
  end.

(** [ch.upper()] for one character *)
Definition upper_character (ch : string) : string :=
  match ch with
  | String c EmptyString =>
      if (N_of_ascii c <? 128)%N then String (upper_char c) EmptyString
      else unicode_upper ch
  | _ => unicode_upper ch
  end.

(** [s.upper()]: the uppercase of each character, put end to end *)
Definition upper (s : string) : string :=
  String.concat "" (map upper_character (characters s)).

(** An assignment of a JSON value to a nullable text column.  A value the
    driver cannot bind makes the flush raise; nothing but assignments
    stands between the two in the callers, so it is raised here. *)
Definition assign_text (pid : Z) (v : json)
    (f : option string -> Payment.t -> Payment.t) : M unit :=
  match sqlite_adapt v with
  | SqlError => raise (LibError (InterfaceError v))
  | SqlNull => assign pid (f None)
  | SqlText s => assign pid (f (Some s))
  end.


End Runtime.

(** ** app/settings.py *)

Record Settings := mk_settings {
  geidea_public_key : string;
  geidea_api_password : string;
  geidea_api_base : string;
  geidea_success_url : string;
  geidea_cancel_url : string;
  geidea_callback_url : string
}.

(** ** app/services/geidea_manager.py *)

Module GeideaManager.
Section Manager.
Context {platform : Platform}.
Variable settings : Settings.
Variable env : Env.
Variable current_user : User.t.

Definition PUBLIC_KEY : string := geidea_public_key settings.
Definition API_PASSWORD : string := geidea_api_password settings.
Definition API_BASE : string := geidea_api_base settings.
Definition SESSION_URL : string :=
  API_BASE +++ "/payment-intent/api/v2/direct/session".
Definition SUCCESS_URL : string := geidea_success_url settings.
Definition CANCEL_URL : string := geidea_cancel_url settings.
Definition CALLBACK_URL : string := geidea_callback_url settings.

(** The key SQLite gives a new row: one more than the largest in use. *)
Definition next_id (t : table) : Z :=
  (1 + fold_right Z.max 0 (map Payment.id t))%Z.

Definition create_payment_record (amount : pyfloat) (currency : string)
    : M Payment.t :=
  try_except
    (let merchant_reference_id := uuid4 env in
     t <- get_working ;;
     let payment :=
       Payment.mk (next_id t) (User.id current_user) amount currency
                  merchant_reference_id None None None None None
                  "PENDING" (server_now env) in
     (* self.db.add(payment) *)
     put_working (t ++ [payment]) ;;;
     commit ;;;
     (* refresh(payment) reads the row just written *)
     ret payment)
    (fun e =>
       rollback ;;;
       raise (HTTPException 500
                ("Failed to create payment record: " +++ exn_str e))).

Definition _format_amount_two_decimals (amount : pyfloat) : string :=
  format_2f amount.

(** The local [data] of [_generate_signature]: the text that is signed. *)
Definition signed_data (merchant_public_key : string) (amount : pyfloat)
    (currency merchant_reference_id timestamp : string) : string :=
  let amount_str := _format_amount_two_decimals amount in
  merchant_public_key +++ amount_str +++ currency +++ merchant_reference_id
    +++ timestamp.

Definition _generate_signature (merchant_public_key : string)
    (amount : pyfloat) (currency merchant_reference_id api_password
     timestamp : string) : string :=
  let data := signed_data merchant_public_key amount currency
                          merchant_reference_id timestamp in
  let digest := HMAC.hmac_sha256 (encode_utf8 api_password) (encode_utf8 data) in
  decode_utf8 (Base64.b64encode digest).

Definition optional_entry (k : string) (o : option json)
    : list (string * json) :=
  match o with
  | Some v => if truthy v then [(k, v)] else []
  | None => []
  end.

(** The request that [create_geidea_session] posts for [payment]. *)
Definition session_request (payment : Payment.t) (language : string)
    (order shipping_address : option json) : http_request :=
  let timestamp := utcnow env in
  let signature :=
    _generate_signature PUBLIC_KEY (float_of_numeric (Payment.amount payment))
      (Payment.currency payment) (Payment.merchant_reference_id payment)
      API_PASSWORD timestamp in
  let request_body :=
    [("amount", JFloat (float_of_numeric (Payment.amount payment)));
     ("currency", JStr (Payment.currency payment));
     ("merchantReferenceId", JStr (Payment.merchant_reference_id payment));
     ("timestamp", JStr timestamp);
     ("signature", JStr signature);
     ("callbackUrl", JStr CALLBACK_URL);
     ("language", JStr language)]
    ++ optional_entry "order" order
    ++ optional_entry "shippingAddress" shipping_address in
  let basic_auth :=
    decode_utf8 (Base64.b64encode
                   (encode_utf8 (PUBLIC_KEY +++ ":" +++ API_PASSWORD))) in
  let headers :=
    [("Content-Type", "application/json");
     ("Authorization", "Basic " +++ basic_auth)] in
  mk_request SESSION_URL headers (JObj request_body).

(** [await client.post(...)] with its [except httpx.HTTPError] *)
Definition client_post (r : http_request) : M http_response :=
  fun w =>
    let w' := mk_world (committed w) (working w) (stdout w) (outbox w ++ [r]) in
    match post env r with
    | HTTPError exc =>
        (Raise (HTTPException 502 ("Failed to reach Geidea: " +++ exc)), w')
    | Response resp => (Return resp, w')
    end.

(** [resp.json()] *)
Definition response_json (resp : http_response) : M json :=
  match resp_json resp with
  | Some v => ret v
  | None => raise (LibError JSONDecodeError)
  end.

Definition create_geidea_session (payment : Payment.t) (language : string)
    (order shipping_address : option json) : M json :=
  try_except
    (if (PUBLIC_KEY =? "") || (API_PASSWORD =? "") then
       raise (HTTPException 500
                "Geidea credentials are not configured on the server")
     else
       resp <- client_post
                 (session_request payment language order shipping_address) ;;
       if (400 <=? resp_status_code resp)%Z then
         raise (HTTPException (resp_status_code resp)
                  ("Geidea error: " +++ resp_text resp))
       else
         data <- response_json resp ;;
         responseCode <- py_get data "responseCode" ;;
         detailedResponseCode <- py_get data "detailedResponseCode" ;;
         if negb (eq_str responseCode "000")
            || negb (eq_str detailedResponseCode "000"
                     || eq_str detailedResponseCode "00000"
                     || is_none detailedResponseCode)
         then
           m1 <- py_get data "detailedResponseMessage" ;;
           m2 <- py_get data "responseMessage" ;;
           let message := py_or (py_or m1 m2) (JStr "Unknown error") in
           raise (HTTPException 400
                    ("Geidea create session failed: " +++ py_str message))
         else
           session <- py_get data "session" ;;
           session_id <- py_get (py_or session (JObj [])) "id" ;;
           if negb (truthy session_id) then
             raise (HTTPException 500
                      "Missing session id from Geidea response")
           else
             assign_text (Payment.id payment) session_id
                         Payment.set_geidea_session_id ;;;
             commit ;;;
             ret session_id)
    (fun e =>
       match e with
       | HTTPException _ _ => raise e
       | _ =>
           rollback ;;;
           raise (HTTPException 500
                    ("Failed to create Geidea session: " +++ exn_str e))
       end).

Definition assign_dumps (pid : Z) (o : option json)
    (f : option string -> Payment.t -> Payment.t) : M unit :=
  match o with
  | Some v => assign pid (f (Some (json_dumps v)))
  | None => ret tt
  end.

Definition create_payment_session (amount : pyfloat) (currency language : string)
    (order shipping_address : option json) : M (json * Z) :=
  try_except
    (payment <- create_payment_record amount currency ;;
     assign_dumps (Payment.id payment) order Payment.set_order_payload ;;;
     assign_dumps (Payment.id payment) shipping_address
                  Payment.set_shipping_address_payload ;;;
     commit ;;;
     session_id <- create_geidea_session payment language order
                                         shipping_address ;;
     ret (session_id, Payment.id payment))
    (fun e =>
       rollback ;;;
       raise (HTTPException 500
                ("Failed to create payment session: " +++ exn_str e))).

(** [payment_id] is the integer of the request path, of any size; the
    driver binds it to the statement only if it has 64 bits.
    [current_user.id] is a key read from the table. *)
Definition get_payment_by_id (payment_id : Z) : M (option Payment.t) :=
  try_except
    (t <- get_working ;;
     if fits_int64 payment_id then
       scalar_one_or_none
         (filter (fun p => (Payment.id p =? payment_id)%Z
                           && (Payment.user_id p =? User.id current_user)%Z) t)
     else raise (LibError (OverflowError payment_id)))
    (fun e =>
       raise (HTTPException 500
                ("Failed to retrieve payment: " +++ exn_str e))).

(** [select(Payment).where(Payment.merchant_reference_id == v)] *)
Definition select_by_merchant_reference (v : json) : M table :=
  match sqlite_adapt v with
  | SqlError => raise (LibError (InterfaceError v))
  | SqlNull => ret []
  | SqlText s =>
      t <- get_working ;;
      ret (filter (fun p => Payment.merchant_reference_id p =? s) t)
  end.

(** The [if]/[elif] chain of [handle_webhook] on the found payment. *)
Definition apply_status (pid : Z) (status order_id : json) : M unit :=
  is_success <- status_in status ["success"] ;;
  if is_success then
    assign pid (Payment.set_status "SUCCESS") ;;;
    assign_text pid order_id Payment.set_geidea_order_id
  else
    is_failed <- status_in status ["failed"; "declined"] ;;
    if is_failed then assign pid (Payment.set_status "FAILED")
    else
      is_cancelled <- status_in status ["cancelled"; "canceled"] ;;
      if is_cancelled then assign pid (Payment.set_status "CANCELLED")
      else assign pid (Payment.set_status "UNKNOWN").

(** A classmethod: it needs no current user.  The value returned is
    Python's [None] on every path. *)
Definition handle_webhook (payload : json) : M json :=
  try_except
    (order_data <- py_get payload "order" ;;
     if negb (truthy order_data) then
       raise (ValueError "Invalid webhook: Missing 'order' data")
     else
       merchant_reference_id <- py_get order_data "merchantReferenceId" ;;
       order_id <- py_get order_data "orderId" ;;
       status <- py_get order_data "status" ;;
       if negb (truthy merchant_reference_id) then
         raise (ValueError
                  "Merchant reference ID not found in webhook payload")
       else
         rows <- select_by_merchant_reference merchant_reference_id ;;
         found <- scalar_one_or_none rows ;;
         match found with
         | None =>
             raise (ValueError
                      ("Payment with merchant reference ID "
                         +++ py_str merchant_reference_id +++ " not found"))
         | Some payment =>
             apply_status (Payment.id payment) status order_id ;;;
             commit ;;;
             ret JNull
         end)
    (fun e =>
       rollback ;;;
       print ("[Geidea Webhook] Error handling webhook: " +++ exn_str e) ;;;
       ret JNull).

End Manager.
End GeideaManager.

(** ** app/schemas.py *)

Module schemas.

(** The body of a create-session request once its fields are typed;
    [None] is a field left out. *)
Record CreatePaymentBody := mk_body {
  body_amount : pyfloat;
  body_currency : option string;
  body_language : option string;
  body_order : option json;
  body_shippingAddress : option json
}.

Record CreatePaymentRequest := mk_request {
  amount : pyfloat;
  currency : string;
  language : string;
  order : option json;
  shippingAddress : option json
}.

Section Validation.
Context {platform : Platform}.

(** [@validator("currency")] *)
Definition currency_upper (v : string) : string := upper v.

(** Field(default="AED", min_length=3, max_length=3): the lengths are
    numbers of characters and are checked on the value supplied; the
    validator runs after them on a supplied value, not on the default, and
    its result is not checked again. *)
Definition validate_currency (c : option string) : option string :=
  match c with
  | None => Some "AED"
  | Some v =>
      if ((3 <=? py_len v) && (py_len v <=? 3))%nat
      then Some (currency_upper v) else None
  end.

(** Model validation; [None] is a rejected request. *)
Definition validate (b : CreatePaymentBody) : option CreatePaymentRequest :=
  if negb (float_gt0 (body_amount b)) then None
  else
    match validate_currency (body_currency b) with
    | None => None
    | Some c =>
        Some (mk_request (body_amount b) c
                (match body_language b with Some l => l | None => "en" end)
                (body_order b) (body_shippingAddress b))
    end.

End Validation.

Record CreatePaymentResponse := mk_response {
  session_id : string;
  payment_id : Z
}.

(** [CreatePaymentResponse(session_id=..., payment_id=...)] *)
Definition new_CreatePaymentResponse (sid : json) (pid : Z)
    : M CreatePaymentResponse :=
  match sid with
  | JStr s => ret (mk_response s pid)
  | _ => raise (LibError (ValidationError "session_id"))
  end.

Record PaymentStatusResponse := mk_status {
  status_payment_id : Z;
  status : string;
  status_amount : pyfloat;
  status_currency : string;
  status_merchant_reference_id : string;
  status_created_at : string
}.

End schemas.

(** ** app/routers/geidea_router.py *)

Module geidea_router.
Section Router.
Context {platform : Platform}.
Variable settings : Settings.
Variable env : Env.

(** [except HTTPException: raise] followed by
    [except Exception as e: raise HTTPException(500, str(e))] *)
Definition reraise_http {A} (e : exn) : M A :=
  match e with
  | HTTPException _ _ => raise e
  | _ => raise (HTTPException 500 (exn_str e))
  end.

Definition create_payment_session (payment_request : schemas.CreatePaymentRequest)
    (current_user : User.t) : M schemas.CreatePaymentResponse :=
  try_except
    (r <- GeideaManager.create_payment_session settings env current_user
            (schemas.amount payment_request)
            (schemas.currency payment_request)
            (schemas.language payment_request)
            (schemas.order payment_request)
            (schemas.shippingAddress payment_request) ;;
     schemas.new_CreatePaymentResponse (fst r) (snd r))
    reraise_http.

(** The endpoint behind its request schema: a body that fails validation
    is answered 422 before the handler runs. *)
Definition post_create_session (body : schemas.CreatePaymentBody)
    (current_user : User.t) : M schemas.CreatePaymentResponse :=
  match schemas.validate body with
  | None => raise (HTTPException 422 "Unprocessable Entity")
  | Some payment_request => create_payment_session payment_request current_user
  end.

Definition get_payment_status (payment_id : Z) (current_user : User.t)
    : M schemas.PaymentStatusResponse :=
  try_except
    (payment <- GeideaManager.get_payment_by_id current_user payment_id ;;
     match payment with
     | None => raise (HTTPException 404 "Payment not found")
     | Some p =>
         ret (schemas.mk_status (Payment.id p) (Payment.status p)
                (float_of_numeric (Payment.amount p)) (Payment.currency p)
                (Payment.merchant_reference_id p) (Payment.created_at p))
     end)
    reraise_http.

(** [await request.json()]; [None] is a body that is not JSON. *)
Definition request_json (body : option json) : M json :=
  match body with
  | Some v => ret v
  | None => raise (LibError JSONDecodeError)
  end.

Definition geidea_webhook (body : option json) : M json :=
  try_except
    (payload <- request_json body ;;
     GeideaManager.handle_webhook payload ;;;
     ret (JObj [("status", JStr "success");
                ("message", JStr "Webhook processed successfully")]))
    (fun e =>
       raise (HTTPException 500
                ("Webhook processing failed: " +++ exn_str e))).

End Router.
End geidea_router.

(** ** A platform and data to run the model on *)

Module Sample.

#[local] Open Scope Z_scope.

(** Two characters outside ASCII: U+00DF, whose uppercase is "SS", and
    U+00E9, whose uppercase is U+00C9. *)
Definition sharp_s : string := decode_utf8 [195; 159]%N.
Definition e_acute : string := decode_utf8 [195; 169]%N.
Definition E_acute : string := decode_utf8 [195; 137]%N.

#[export] Instance platform : Platform := {|
  lib_error_str e :=
    match e with
    | AttributeError _ a => "object has no attribute '" +++ a +++ "'"
    | JSONDecodeError => "Expecting value"
    | InterfaceError _ => "Error binding parameter"
    | IntegrityError c => "UNIQUE constraint failed: " +++ c
    | MultipleResultsFound => "Multiple rows were found when one or none was required"
    | ValidationError f => "validation error for " +++ f
    | OverflowError _ => "Python int too large to convert to SQLite INTEGER"
    end;
  py_str_other v :=
    match v with
    | JNull => "None"
    | JBool true => "True"
    | JBool false => "False"
    | JInt z => str_of_Z z
    | JStr s => s
    | _ => "<object>"
    end;
  json_dumps v :=
    match v with
    | JObj [] => "{}"
    | JStr s => s
    | _ => "{...}"
    end;
  sqlite_adapt_other v :=
    match v with
    | JBool b => SqlText (if b then "1" else "0")
    | JInt z => if fits_int64 z then SqlText (str_of_Z z) else SqlError
    | JFloat NaN => SqlNull
    | JFloat x => SqlText (format_2f x)
    | _ => SqlError
    end;
  float_of_numeric x := x;
  unicode_upper ch :=
    if String.eqb ch sharp_s then "SS"
    else if String.eqb ch e_acute then E_acute
    else ch
|}.

Definition settings : Settings :=
  mk_settings "pk-test" "secret" "https://api.geidea.ae"
              "https://shop.example/ok" "https://shop.example/cancel"
              "https://shop.example/callback".

Definition alice : User.t := User.mk 1 "alice@example.com" "h1" true "2026-01-01".
Definition bob : User.t := User.mk 2 "bob@example.com" "h2" true "2026-01-02".

(** 100.0 *)
Definition hundred : pyfloat := Finite false 100 0.

Definition session_body (sid : json) : json :=
  JObj [("responseCode", JStr "000");
        ("detailedResponseCode", JStr "000");
        ("session", JObj [("id", sid)])].

(** A gateway that opens the session "sess_1". *)
Definition env_ok : Env :=
  mk_env "ref-1" "2026/01/05 10:00:00" "2026-01-05T10:00:00"
         (fun _ => Response (mk_response 200 "" (Some (session_body (JStr "sess_1"))))).


(** A gateway that cannot be reached. *)
Definition env_down : Env :=
  mk_env "ref-1" "2026/01/05 10:00:00" "2026-01-05T10:00:00"
         (fun _ => HTTPError "connection refused").

Definition webhook (ref order_id status : string) : json :=
  JObj [("order", JObj [("merchantReferenceId", JStr ref);
                        ("orderId", JStr order_id);
                        ("status", JStr status)])].

Definition paid : Payment.t :=
  Payment.mk 1 1 hundred "AED" "ref-1" (Some "ord_9") (Some "sess_1")
             None None None "SUCCESS" "2026-01-05T10:00:00".

Definition pending : Payment.t :=
  Payment.mk 2 2 hundred "AED" "ref-2" None (Some "sess_2")
             None None None "PENDING" "2026-01-06T10:00:00".

Definition body_aed : schemas.CreatePaymentBody :=
  schemas.mk_body hundred (Some "aed") None None None.

Definition body_default : schemas.CreatePaymentBody :=
  schemas.mk_body hundred None None None None.

End Sample.

(** [c] returns nothing but [v]. *)
Definition returns_only {A} (c : M A) (v : A) : Prop :=
  forall w a w', c w = (Return a, w') -> a = v.

(** * Specifications *)

(** ** The signature (spec 4.1) *)

(** The number of hundredths written by a rendering [ip.d1d2]. *)
Definition cents_of (ip : string) (d1 d2 : ascii) : option N :=
  match NilEmpty.uint_of_string ip with
  | Some u =>
      Some (100 * N.of_uint u + 10 * (N_of_ascii d1 - 48) + (N_of_ascii d2 - 48))%N
  | None => None
  end.

(** [c] hundredths is within half a hundredth of m * 2^e. *)
Definition nearest_hundredth (m : N) (e : Z) (c : N) : Prop :=
  (2 * Z.abs (Z.of_N c * 2 ^ Z.max 0 (- e) - 100 * Z.of_N m * 2 ^ Z.max 0 e)
   <= 2 ^ Z.max 0 (- e))%Z.

(** A text with exactly two decimal digits after a '.' separator: an
    optional minus sign, at least one digit, the separator, two digits. *)
Definition two_decimal_form (s : string) : Prop :=
  exists (neg : bool) (ip : string) (d1 d2 : ascii),
    s = sign_prefix neg +++ ip +++ "." +++ String d1 (String d2 "")
    /\ ip <> "" /\ all_digits ip = true
    /\ is_digit d1 = true /\ is_digit d2 = true.

(** [s] is the amount (-1)^neg * m * 2^e written with exactly two decimal
    digits. *)
Definition two_decimal_rendering (neg : bool) (m : N) (e : Z) (s : string)
    : Prop :=
  exists (ip : string) (d1 d2 : ascii) (c : N),
    s = sign_prefix neg +++ ip +++ "." +++ String d1 (String d2 "")
    /\ ip <> "" /\ all_digits ip = true
    /\ is_digit d1 = true /\ is_digit d2 = true
    /\ cents_of ip d1 d2 = Some c /\ nearest_hundredth m e c.

(** The signature as the specification words it: base64 of the
    HMAC-SHA256, keyed by the API secret, of the fields put end to end. *)
Definition Sign_spec (public_key formatted_amount currency
    merchant_reference_id api_secret timestamp : string) : string :=
  decode_utf8
    (Base64.b64encode
       (HMAC.hmac_sha256 (encode_utf8 api_secret)
          (encode_utf8
             (String.concat ""
                [public_key; formatted_amount; currency;
                 merchant_reference_id; timestamp])))).

(** The claim on the signature at one input. *)
Definition signature_claim (pk : string) (amount : pyfloat)
    (currency ref secret ts : string) : Prop :=
  exists s,
    two_decimal_form s
    /\ GeideaManager.signed_data pk amount currency ref ts
       = String.concat "" [pk; s; currency; ref; ts]
    /\ GeideaManager._generate_signature pk amount currency ref secret ts
       = Sign_spec pk s currency ref secret ts.


(** ** Webhook reconciliation (spec 4.4) *)

(** The terminal states. *)
Definition terminal (s : string) : bool :=
  existsb (String.eqb s) ["SUCCESS"; "FAILED"; "CANCELLED"; "UNKNOWN"].

(** [s] and [w] are the same text up to the case of their letters. *)
Fixpoint eq_nocase (s w : string) : bool :=
  match s, w with
  | EmptyString, EmptyString => true
  | String a s', String b w' =>
      Ascii.eqb (lower_char a) (lower_char b) && eq_nocase s' w'
  | _, _ => false
  end.

(** The mapping of gateway status texts to the internal states, as the
    specification words it. *)
Definition map_status (s : string) : string :=
  if eq_nocase s "success" then "SUCCESS"
  else if eq_nocase s "failed" || eq_nocase s "declined" then "FAILED"
  else if eq_nocase s "cancelled" || eq_nocase s "canceled" then "CANCELLED"
  else "UNKNOWN".

(** The [order] object of a payload, when it has one: a non-empty dict
    under the key "order" of a dict. *)
Definition order_object (payload : json) : option (list (string * json)) :=
  match payload with
  | JObj m =>
      match dict_get m "order" with
      | JObj (x :: r) => Some (x :: r)
      | _ => None
      end
  | _ => None
  end.

(** The status text a webhook carries: the empty text when the field is
    missing or falsy, nothing when it holds a value that is not text. *)
Definition gateway_status (status : json) : option string :=
  if truthy status then
    match status with JStr s => Some s | _ => None end
  else Some "".

(** A field of the [order] object of a payload. *)
Definition webhook_field (payload : json) (k : string) : json :=
  match order_object payload with
  | Some o => dict_get o k
  | None => JNull
  end.

(** How an optional text sits in a column. *)
Definition sql_of_option (o : option string) : sql_value :=
  match o with Some x => SqlText x | None => SqlNull end.

Section WebhookSpec.
Context {platform : Platform}.

(** What reconciliation writes on the payment for the status text [s] and
    the order id [order_id]; an exception when the order id cannot be
    bound. *)
Definition webhook_write (s : string) (order_id : json)
    : exn + (Payment.t -> Payment.t) :=
  let st := map_status s in
  if st =? "SUCCESS" then
    match sqlite_adapt order_id with
    | SqlError => inl (LibError (InterfaceError order_id))
    | SqlNull =>
        inr (fun p => Payment.set_geidea_order_id None
                        (Payment.set_status "SUCCESS" p))
    | SqlText x =>
        inr (fun p => Payment.set_geidea_order_id (Some x)
                        (Payment.set_status "SUCCESS" p))
    end
  else inr (Payment.set_status st).

(** The line [handle_webhook] prints for the exception [e]. *)
Definition webhook_log (e : exn) : string :=
  "[Geidea Webhook] Error handling webhook: " +++ exn_str e.

(** [payload] carries the merchant reference of the row [p] of [t], and of
    no other row. *)
Definition references (t : table) (payload : json) (p : Payment.t) : Prop :=
  order_object payload <> None
  /\ truthy (webhook_field payload "merchantReferenceId") = true
  /\ sqlite_adapt (webhook_field payload "merchantReferenceId")
     = SqlText (Payment.merchant_reference_id p)
  /\ filter (fun q => Payment.merchant_reference_id q
                      =? Payment.merchant_reference_id p) t = [p].

(** The payloads that reconciliation is to reject: no [order] object, no
    merchant reference in it, or a reference that no row of [t] carries. *)
Inductive rejected_payload (t : table) (payload : json) : Prop :=
| missing_order :
    order_object payload = None -> rejected_payload t payload
| missing_reference :
    order_object payload <> None ->
    truthy (webhook_field payload "merchantReferenceId") = false ->
    rejected_payload t payload
| unknown_reference :
    order_object payload <> None ->
    truthy (webhook_field payload "merchantReferenceId") = true ->
    (forall p, In p t ->
       sqlite_adapt (webhook_field payload "merchantReferenceId")
       <> SqlText (Payment.merchant_reference_id p)) ->
    rejected_payload t payload.

(** The table in the database once [handle_webhook] has run on [payload]
    in a fresh session over [t]. *)
Definition after_webhook (t : table) (payload : json) : table :=
  committed (snd (GeideaManager.handle_webhook payload (world_of t))).

(** C1 at one input: the row with the key of the terminal payment [p]
    keeps its status and its order id. *)
Definition terminal_unchanged_claim (t : table) (payload : json)
    (p : Payment.t) : Prop :=
  references t payload p ->
  terminal (Payment.status p) = true ->
  forall p', In p' (after_webhook t payload) ->
    Payment.id p' = Payment.id p ->
    Payment.status p' = Payment.status p
    /\ Payment.geidea_order_id p' = Payment.geidea_order_id p.

(** C7 at one input: the mapped status is written on the pending
    payment [p]. *)
Definition pending_written_claim (t : table) (payload : json)
    (p : Payment.t) (s : string) : Prop :=
  references t payload p ->
  Payment.status p = "PENDING" ->
  gateway_status (webhook_field payload "status") = Some s ->
  exists p', In p' (after_webhook t payload)
    /\ Payment.id p' = Payment.id p
    /\ Payment.status p' = map_status s.

(** C9 at one input: the caller of [handle_webhook] can tell the attempt
    on [ok] from the attempt on [bad] by what is returned to it. *)
Definition outcome_reported (w : World) (ok bad : json) : Prop :=
  fst (GeideaManager.handle_webhook ok w)
  <> fst (GeideaManager.handle_webhook bad w).

End WebhookSpec.

(** ** Session creation (spec 4.2 and 4.4) *)

(** The success codes of a gateway answer: [responseCode] is "000" and
    [detailedResponseCode] is "000", "00000" or not there. *)
Definition codes_ok (m : list (string * json)) : bool :=
  eq_str (dict_get m "responseCode") "000"
  && (eq_str (dict_get m "detailedResponseCode") "000"
      || eq_str (dict_get m "detailedResponseCode") "00000"
      || is_none (dict_get m "detailedResponseCode")).

(** The detail message of a gateway answer. *)
Definition detail_message (m : list (string * json)) : json :=
  py_or (py_or (dict_get m "detailedResponseMessage")
               (dict_get m "responseMessage"))
        (JStr "Unknown error").

(** The value at [session.id], [None] when there is none to read. *)
Definition session_id_at (m : list (string * json)) : json :=
  match py_or (dict_get m "session") (JObj []) with
  | JObj s => dict_get s "id"
  | _ => JNull
  end.

(** A field of a JSON object. *)
Definition json_field (v : json) (k : string) : json :=
  match v with
  | JObj m => dict_get m k
  | _ => JNull
  end.

(** The JSON object a response carries, if it carries one. *)
Definition response_object (r : http_response) : option (list (string * json)) :=
  match resp_json r with
  | Some (JObj m) => Some m
  | _ => None
  end.


Section SessionSpec.
Context {platform : Platform}.
Variable settings : Settings.
Variable env : Env.

Definition credentials_configured : bool :=
  negb ((GeideaManager.PUBLIC_KEY settings =? "")
        || (GeideaManager.API_PASSWORD settings =? "")).

(** The row [create_payment_record] adds to the table [t]. *)
Definition new_payment (user : User.t) (t : table) (amount : pyfloat)
    (currency : string) : Payment.t :=
  Payment.mk (GeideaManager.next_id t) (User.id user) amount currency
             (uuid4 env) None None None None None "PENDING" (server_now env).

(** The row once [create_payment_session] has stored the optional
    payloads. *)
Definition with_payloads (order shipping_address : option json)
    (p : Payment.t) : Payment.t :=
  let p1 := match order with
            | Some v => Payment.set_order_payload (Some (json_dumps v)) p
            | None => p
            end in
  match shipping_address with
  | Some v => Payment.set_shipping_address_payload (Some (json_dumps v)) p1
  | None => p1
  end.

(** The exception [create_geidea_session] raises from its last handler. *)
Definition session_fault (e : exn) : exn :=
  HTTPException 500 ("Failed to create Geidea session: " +++ exn_str e).

(** The session id is stored on the payment, if the table then passes its
    constraints. *)
Definition attach_session (pid : Z) (sid : json) (o : option string)
    (t : table) : outcome json * table :=
  let t' := update_row pid (Payment.set_geidea_session_id o) t in
  match violated t' with
  | None => (Return sid, t')
  | Some k => (Raise (session_fault (LibError (IntegrityError k))), t)
  end.

(** What [create_geidea_session] makes of a JSON object answered with a
    status below 400, on the table [t]. *)
Definition answer_outcome (pid : Z) (m : list (string * json)) (t : table)
    : outcome json * table :=
  if negb (codes_ok m) then
    (Raise (HTTPException 400
              ("Geidea create session failed: " +++ py_str (detail_message m))),
     t)
  else
    match py_or (dict_get m "session") (JObj []) with
    | JObj s =>
        let sid := dict_get s "id" in
        if negb (truthy sid) then
          (Raise (HTTPException 500 "Missing session id from Geidea response"), t)
        else
          match sqlite_adapt sid with
          | SqlError => (Raise (session_fault (LibError (InterfaceError sid))), t)
          | SqlNull => attach_session pid sid None t
          | SqlText x => attach_session pid sid (Some x) t
          end
    | v => (Raise (session_fault (LibError (AttributeError v "get"))), t)
    end.

(** What [create_geidea_session] makes of the gateway's reaction. *)
Definition post_outcome (pid : Z) (r : post_result) (t : table)
    : outcome json * table :=
  match r with
  | HTTPError exc =>
      (Raise (HTTPException 502 ("Failed to reach Geidea: " +++ exc)), t)
  | Response resp =>
      if (400 <=? resp_status_code resp)%Z then
        (Raise (HTTPException (resp_status_code resp)
                  ("Geidea error: " +++ resp_text resp)), t)
      else
        match resp_json resp with
        | None => (Raise (session_fault (LibError JSONDecodeError)), t)
        | Some (JObj m) => answer_outcome pid m t
        | Some v => (Raise (session_fault (LibError (AttributeError v "get"))), t)
        end
  end.

(** The request sent for the payment that a call of
    [create_payment_session] inserts into [t]. *)
Definition sent_request (user : User.t) (t : table) (amount : pyfloat)
    (currency language : string) (order shipping_address : option json)
    : http_request :=
  GeideaManager.session_request settings env
    (new_payment user t amount currency) language order shipping_address.

(** The ways the gateway call of the specification fails: the network, a
    status of 400 or more, a decline, an answer without a session id. *)
Inductive gateway_failure : post_result -> Prop :=
| network_failure (exc : string) : gateway_failure (HTTPError exc)
| http_failure (r : http_response) :
    (400 <= resp_status_code r)%Z -> gateway_failure (Response r)
| gateway_decline (r : http_response) (m : list (string * json)) :
    (resp_status_code r < 400)%Z ->
    response_object r = Some m ->
    codes_ok m = false ->
    gateway_failure (Response r)
| missing_session_id (r : http_response) (m : list (string * json)) :
    (resp_status_code r < 400)%Z ->
    response_object r = Some m ->
    codes_ok m = true ->
    truthy (session_id_at m) = false ->
    gateway_failure (Response r).

End SessionSpec.

(** ** The status query *)

(** The exception [get_payment_by_id] raises for an id that the driver
    cannot bind. *)
Definition unbound_id_fault `{Platform} (payment_id : Z) : exn :=
  HTTPException 500
    ("Failed to retrieve payment: "
       +++ exn_str (LibError (OverflowError payment_id))).

(** The payments of [u] in the table, and the world that holds no other. *)
Definition own_rows (u : User.t) (t : table) : table :=
  filter (fun q => (Payment.user_id q =? User.id u)%Z) t.

Definition without_others (u : User.t) (w : World) : World :=
  mk_world (committed w) (own_rows u (working w)) (stdout w) (outbox w).

(** * Further definitions *)

(** The columns of a payment that webhook reconciliation has no business
    with: all but [status] and [geidea_order_id]. *)
Definition fixed_columns (p : Payment.t) :=
  (Payment.id p, Payment.user_id p, Payment.amount p, Payment.currency p,
   Payment.merchant_reference_id p, Payment.geidea_session_id p,
   Payment.card_token p, Payment.order_payload p,
   Payment.shipping_address_payload p, Payment.created_at p).

(** The columns of a payment other than [geidea_session_id]. *)
Definition session_free_columns (p : Payment.t) :=
  (Payment.id p, Payment.user_id p, Payment.amount p, Payment.currency p,
   Payment.merchant_reference_id p, Payment.geidea_order_id p,
   Payment.card_token p, Payment.order_payload p,
   Payment.shipping_address_payload p, Payment.status p,
   Payment.created_at p).

(** What the status endpoint shows of a payment. *)
Definition status_view `{Platform} (p : Payment.t)
    : schemas.PaymentStatusResponse :=
  schemas.mk_status (Payment.id p) (Payment.status p)
    (float_of_numeric (Payment.amount p)) (Payment.currency p)
    (Payment.merchant_reference_id p) (Payment.created_at p).



(** ** app/payment_router.py *)

Module payment_router.

Definition GEIDEA_PUBLIC_KEY : string := "2258188d-9b2e-4bbf-817a-bd74a85e0c9c".
Definition GEIDEA_API_PASSWORD : string := "e8374eaa-a151-47a6-b967-99dc482ecaaf".
Definition GEIDEA_API_BASE : string := "https://api.geidea.ae".
Definition GEIDEA_SESSION_URL : string :=
  GEIDEA_API_BASE +++ "/payment-intent/api/v2/direct/session".

(** The validated request model. *)
Record CreateSessionRequest := mk_payload {
  amount : pyfloat;
  currency : string;
  merchantReferenceId : option string;
  language : option string;
  callbackUrl : string
}.

Definition _format_amount_two_decimals (amount : pyfloat) : string :=
  format_2f amount.

(** [merchant_reference_id or ""] *)
Definition reference_or_empty (merchant_reference_id : option string) : string :=
  match merchant_reference_id with
  | Some r => r
  | None => ""
  end.

Definition _generate_signature (merchant_public_key : string)
    (amount : pyfloat) (currency : string)
    (merchant_reference_id : option string)
    (api_password timestamp : string) : string :=
  let amount_str := _format_amount_two_decimals amount in
  let merchant_reference_id := reference_or_empty merchant_reference_id in
  let data := merchant_public_key +++ amount_str +++ currency
                +++ merchant_reference_id +++ timestamp in
  let digest := HMAC.hmac_sha256 (encode_utf8 api_password) (encode_utf8 data) in
  decode_utf8 (Base64.b64encode digest).

Definition json_of_option (o : option string) : json :=
  match o with Some s => JStr s | None => JNull end.

Section Router.
Context {platform : Platform}.
Variable env : Env.

(** The request [create_session] posts. *)
Definition session_request (payload : CreateSessionRequest) : http_request :=
  let timestamp := utcnow env in
  let signature :=
    _generate_signature GEIDEA_PUBLIC_KEY (amount payload) (currency payload)
      (merchantReferenceId payload) GEIDEA_API_PASSWORD timestamp in
  let request_body :=
    [("amount", JFloat (amount payload));
     ("currency", JStr (currency payload));
     ("merchantReferenceId", json_of_option (merchantReferenceId payload));
     ("timestamp", JStr timestamp);
     ("signature", JStr signature);
     ("callbackUrl", JStr (callbackUrl payload))] in
  let basic_auth :=
    decode_utf8 (Base64.b64encode
                   (encode_utf8 (GEIDEA_PUBLIC_KEY +++ ":"
                                   +++ GEIDEA_API_PASSWORD))) in
  let headers :=
    [("Content-Type", "application/json");
     ("Authorization", "Basic " +++ basic_auth)] in
  mk_request GEIDEA_SESSION_URL headers (JObj request_body).

(** [CreateSessionResponse(sessionId=session_id)] *)
Definition new_CreateSessionResponse (sid : json) : M string :=
  match sid with
  | JStr s => ret s
  | _ => raise (LibError (ValidationError "sessionId"))
  end.

Definition create_session (payload : CreateSessionRequest) : M string :=
  if (GEIDEA_PUBLIC_KEY =? "") || (GEIDEA_API_PASSWORD =? "") then
    raise (HTTPException 500
             "Geidea credentials are not configured on the server")
  else
    resp <- GeideaManager.client_post env (session_request payload) ;;
    if (400 <=? resp_status_code resp)%Z then
      raise (HTTPException (resp_status_code resp)
               ("Geidea error: " +++ resp_text resp))
    else
      data <- GeideaManager.response_json resp ;;
      responseCode <- py_get data "responseCode" ;;
      detailedResponseCode <- py_get data "detailedResponseCode" ;;
      if negb (eq_str responseCode "000")
         || negb (eq_str detailedResponseCode "000"
                  || eq_str detailedResponseCode "00000"
                  || is_none detailedResponseCode)
      then
        m1 <- py_get data "detailedResponseMessage" ;;
        m2 <- py_get data "responseMessage" ;;
        let message := py_or (py_or m1 m2) (JStr "Unknown error") in
        raise (HTTPException 400
                 ("Geidea create session failed: " +++ py_str message))
      else
        session <- py_get data "session" ;;
        session_id <- py_get (py_or session (JObj [])) "id" ;;
        if negb (truthy session_id) then
          raise (HTTPException 500 "Missing session id from Geidea response")
        else new_CreateSessionResponse session_id.

End Router.
End payment_router.

(** ** app/main.py: the callback endpoint *)

Module main.
Section Callback.
Context {platform : Platform}.



End Callback.
End main.

(** ** app/services/user_crud.py

    The [users] table is passed explicitly: a function returns its outcome
    and the table as committed. *)

Module user_crud.

Definition users := list User.t.

(** The constraints of the table: the primary key and [uq_user_email]. *)
Definition users_ok (t : users) : bool :=
  distinctZ (map User.id t) && distinct (map User.email t).

Definition next_id (t : users) : Z :=
  (1 + fold_right Z.max 0 (map User.id t))%Z.

Section Crud.
(** [get_password_hash] and [verify_password] of [app/services/auth.py]:
    the passlib context.  Hashing is salted, so the hash of a call is what
    the surroundings make it. *)
Variable get_password_hash : string -> string.
Variable verify_password : string -> string -> bool.
(** [func.now()], the [created_at] default *)
Variable now : string.

Definition get_user_by_email (t : users) (email : string)
    : outcome (option User.t) :=
  match filter (fun u => User.email u =? email) t with
  | [] => Return None
  | [u] => Return (Some u)
  | _ => Raise (LibError MultipleResultsFound)
  end.

Definition create_user (t : users) (email password : string)
    : outcome User.t * users :=
  match get_user_by_email t email with
  | Raise e => (Raise e, t)
  | Return (Some _) =>
      (Raise (HTTPException 400 "Email already registered."), t)
  | Return None =>
      let user := User.mk (next_id t) email (get_password_hash password)
                          true now in
      (* db.add(user); await db.commit(); await db.refresh(user) *)
      if users_ok (t ++ [user]) then (Return user, t ++ [user])
      else (Raise (LibError (IntegrityError "users")), t)
  end.

Definition authenticate_user (t : users) (email password : string)
    : outcome User.t :=
  match get_user_by_email t email with
  | Raise e => Raise e
  | Return None =>
      Raise (HTTPException 401 "Incorrect email or password.")
  | Return (Some user) =>
      if verify_password password (User.hashed_password user) then Return user
      else Raise (HTTPException 401 "Incorrect email or password.")
  end.

End Crud.
End user_crud.

(** ** More data to run the model on *)

Module Fixtures.

(** A gateway that answers 503. *)
Definition env_busy : Env :=
  mk_env "ref-1" "2026/01/05 10:00:00" "2026-01-05T10:00:00"
         (fun _ => Response (mk_response 503 "busy" None)).

(** A toy password scheme to run [user_crud] on. *)
Definition toy_hash (password : string) : string := "hash:" +++ password.
Definition toy_verify (password hashed : string) : bool :=
  hashed =? toy_hash password.

Definition carol : User.t :=
  User.mk 1 "carol@example.com" (toy_hash "pw") true "2026-01-01".

End Fixtures.
(** * Checks of the model against Python *)

(** Known answers of [hashlib], [hmac] and [base64]: SHA-256 of "abc" and
    the second test case of RFC 4231. *)
Example sha256_abc :
  decode_utf8 (Base64.b64encode (SHA256.digest (encode_utf8 "abc")))
  = "ungWv48Bz+pBQUDeXa4iI7ADYaOWF3qctBD/YfIAFa0=".
Proof. vm_compute. reflexivity. Qed.

Example hmac_sha256_rfc4231 :
  decode_utf8
    (Base64.b64encode
       (HMAC.hmac_sha256 (encode_utf8 "Jefe")
          (encode_utf8 "what do ya want for nothing?")))
  = "W9zBRr9gdU5qBCQmCJV1x1oAPwidJzmDnexYuWTsOEM=".
Proof. vm_compute. reflexivity. Qed.

(** [f"{x:.2f}"] on 10.0, 0.125 (a tie, to the even hundredth), 2.675 (the
    float below it), -0.001 and the infinities. *)
Example format_2f_samples :
  format_2f (Finite false 10 0) = "10.00"
  /\ format_2f (Finite false 1 (-3)) = "0.12"
  /\ format_2f (Finite false 6023564501608038 (-51)) = "2.67"
  /\ format_2f (Finite true 1 (-10)) = "-0.00"
  /\ format_2f (Inf false) = "inf"
  /\ format_2f (Inf true) = "-inf"
  /\ format_2f NaN = "nan".
Proof. repeat split; vm_compute; reflexivity. Qed.

(** The signature Python computes for these fields. *)
Example generate_signature_sample :
  GeideaManager._generate_signature "pk-test" Sample.hundred "AED" "ref-1"
    "secret" "2026/01/05 10:00:00"
  = "v7+7G9EgImSLRVQX5BLyxRaiZzG5B2toBRg6O2C51G4=".
Proof. vm_compute. reflexivity. Qed.

(** The end-to-end scenario of the specification: a session for 100.00
    "aed" stores "AED" and returns the session id of the gateway; the
    "Success" webhook for its reference then makes the payment SUCCESS with
    the order id of the webhook. *)
Example end_to_end :
  let '(r, w1) :=
    geidea_router.post_create_session (platform := Sample.platform)
      Sample.settings Sample.env_ok Sample.body_aed Sample.alice
      (world_of []) in
  let '(_, w2) :=
    GeideaManager.handle_webhook (platform := Sample.platform)
      (Sample.webhook "ref-1" "ord_9" "Success") w1 in
  r = Return (schemas.mk_response "sess_1" 1)
  /\ committed w2
     = [Payment.mk 1 1 Sample.hundred "AED" "ref-1" (Some "ord_9")
          (Some "sess_1") None None None "SUCCESS" "2026-01-05T10:00:00"].
Proof. vm_compute. split; reflexivity. Qed.

(** * Proofs *)

Lemma length_append (a b : string) :
  String.length (a +++ b) = (String.length a + String.length b)%nat.
Proof. induction a as [|c a IH]; simpl; [reflexivity | now rewrite IH]. Qed.

Lemma append_nil_r (a : string) : a +++ "" = a.
Proof. induction a as [|c a IH]; simpl; [reflexivity | now rewrite IH]. Qed.

Lemma two_decimal_form_length (s : string) :
  two_decimal_form s -> (4 <= String.length s)%nat.
Proof.
  intros (neg & ip & d1 & d2 & -> & Hip & _).
  rewrite !length_append. destruct ip as [|c ip]; [congruence|].
  simpl. lia.
Qed.

Lemma all_digits_string_of_uint (u : Decimal.uint) :
  all_digits (NilEmpty.string_of_uint u) = true.
Proof. induction u; simpl; auto. Qed.

Lemma str_of_N_nonempty (n : N) : str_of_N n <> "".
Proof.
  unfold str_of_N. destruct n as [|p]; [discriminate|].
  simpl. pose proof (DecimalPos.Unsigned.to_uint_nonnil p) as H.
  destruct (Pos.to_uint p); [congruence | discriminate ..].
Qed.

Lemma is_digit_digit_char (n : N) : (n < 10)%N -> is_digit (digit_char n) = true.
Proof.
  intros H. unfold is_digit, digit_char.
  rewrite N_ascii_embedding by lia.
  apply andb_true_iff; split; apply N.leb_le; lia.
Qed.

Lemma N_of_digit_char (n : N) : (n < 10)%N -> (N_of_ascii (digit_char n) - 48 = n)%N.
Proof. intros H. unfold digit_char. rewrite N_ascii_embedding by lia. lia. Qed.

Lemma hundredths_nearest (m : N) (e : Z) : nearest_hundredth m e (hundredths m e).
Proof.
  unfold nearest_hundredth, hundredths.
  destruct (Z.leb_spec 0 e) as [He|He].
  - rewrite (Z.max_l 0 (- e)), (Z.max_r 0 e) by lia.
    rewrite !N2Z.inj_mul, N2Z.inj_pow, Z2N.id by lia.
    change (Z.of_N 100) with 100%Z. change (Z.of_N 2) with 2%Z.
    change (2 ^ 0)%Z with 1%Z.
    replace (Z.of_N m * 100 * 2 ^ e * 1 - 100 * Z.of_N m * 2 ^ e)%Z
      with 0%Z by ring.
    simpl. lia.
  - rewrite (Z.max_r 0 (- e)), (Z.max_l 0 e) by lia.
    change (2 ^ 0)%Z with 1%Z. rewrite Z.mul_1_r.
    set (d := (2 ^ Z.to_N (- e))%N).
    assert (Hd : (Z.of_N d = 2 ^ (- e))%Z).
    { unfold d. rewrite N2Z.inj_pow, Z2N.id by lia. reflexivity. }
    assert (Hd0 : (d <> 0)%N) by (unfold d; apply N.pow_nonzero; lia).
    pose proof (N.div_mod (m * 100) d Hd0) as Hdm.
    pose proof (N.mod_lt (m * 100) d Hd0) as Hlt.
    rewrite <- Hd.
    set (q := (m * 100 / d)%N) in *. set (r := (m * 100 mod d)%N) in *.
    assert (Hz : (100 * Z.of_N m = Z.of_N d * Z.of_N q + Z.of_N r)%Z) by lia.
    rewrite Hz.
    destruct (N.ltb_spec (2 * r) d) as [H1|H1]; [lia|].
    destruct (N.ltb_spec d (2 * r)) as [H2|H2]; [lia|].
    destruct (N.even q); lia.
Qed.

Lemma format_2f_rendering (neg : bool) (m : N) (e : Z) :
  two_decimal_rendering neg m e (format_2f (Finite neg m e)).
Proof.
  unfold two_decimal_rendering, format_2f.
  set (c := hundredths m e).
  assert (H100 : (c mod 100 < 100)%N) by (apply N.mod_lt; lia).
  assert (Hhi : (c mod 100 / 10 < 10)%N) by (apply N.Div0.div_lt_upper_bound; lia).
  assert (Hlo : (c mod 100 mod 10 < 10)%N) by (apply N.mod_lt; lia).
  exists (str_of_N (c / 100)), (digit_char (c mod 100 / 10)),
         (digit_char (c mod 100 mod 10)), c.
  repeat split.
  - apply str_of_N_nonempty.
  - apply all_digits_string_of_uint.
  - now apply is_digit_digit_char.
  - now apply is_digit_digit_char.
  - unfold cents_of, str_of_N. rewrite NilEmpty.usu, DecimalN.Unsigned.of_to.
    rewrite !N_of_digit_char by assumption. f_equal.
    pose proof (N.div_mod c 100 ltac:(lia)).
    pose proof (N.div_mod (c mod 100) 10 ltac:(lia)). lia.
  - apply hundredths_nearest.
Qed.

(** C2, as stated, fails on an infinite amount: the text signed for
    [float("inf")] carries "inf", which has no decimal digits. *)
Lemma signature_claim_fails_on_inf :
  ~ signature_claim "" (Inf false) "" "" "" "".
Proof.
  intros (s & Hform & Hdata & _).
  cbn in Hdata. rewrite append_nil_r in Hdata. subst s.
  apply two_decimal_form_length in Hform. simpl in Hform. lia.
Qed.

(** C2 (amended): for every finite amount the signature is the base64 of
    the HMAC-SHA256, keyed by the API secret, of public key, amount, currency
    code, merchant reference id and timestamp put end to end in that order
    without delimiters, where the amount is written with exactly two decimal
    digits after a '.' and is the nearest number of hundredths. *)
Theorem generate_signature_finite
    (pk : string) (neg : bool) (m : N) (e : Z) (currency ref secret ts : string) :
  exists s,
    two_decimal_rendering neg m e s
    /\ two_decimal_form s
    /\ GeideaManager.signed_data pk (Finite neg m e) currency ref ts
       = String.concat "" [pk; s; currency; ref; ts]
    /\ GeideaManager._generate_signature pk (Finite neg m e) currency ref secret ts
       = Sign_spec pk s currency ref secret ts.
Proof.
  exists (format_2f (Finite neg m e)).
  assert (Hcat : GeideaManager.signed_data pk (Finite neg m e) currency ref ts
                 = String.concat ""
                     [pk; format_2f (Finite neg m e); currency; ref; ts]).
  { unfold GeideaManager.signed_data, GeideaManager._format_amount_two_decimals.
    cbn [String.concat]. reflexivity. }
  split; [apply format_2f_rendering|].
  split.
  { destruct (format_2f_rendering neg m e)
      as (ip & d1 & d2 & c & Hs & Hip & Hd & H1 & H2 & _).
    exists neg, ip, d1, d2. auto. }
  split; [exact Hcat|].
  unfold GeideaManager._generate_signature, Sign_spec. now rewrite Hcat.
Qed.

(** ** Running the monad *)

Lemma violated_none_ok (t : table) : violated t = None <-> table_ok t = true.
Proof. unfold table_ok. destruct (violated t); split; congruence. Qed.

Lemma update_row_compose (pid : Z) (f g : Payment.t -> Payment.t) (t : table) :
  (forall r, Payment.id (f r) = Payment.id r) ->
  update_row pid g (update_row pid f t) = update_row pid (fun r => g (f r)) t.
Proof.
  intros Hid. unfold update_row. rewrite map_map. apply map_ext. intros r.
  destruct (Z.eqb_spec (Payment.id r) pid) as [E|E].
  - rewrite Hid. now rewrite (proj2 (Z.eqb_eq _ _) E).
  - now rewrite (proj2 (Z.eqb_neq _ _) E).
Qed.

Lemma lower_eqb_nocase (s w : string) :
  lower w = w -> (lower s =? w) = eq_nocase s w.
Proof.
  unfold lower. revert w.
  induction s as [|a s IH]; intros [|b w] Hw; simpl; try reflexivity.
  simpl in Hw. injection Hw as Hb Hw'.
  rewrite (IH w Hw'), Hb. reflexivity.
Qed.

Lemma existsb_lower (s : string) (words : list string) :
  Forall (fun x => lower x = x) words ->
  existsb (String.eqb (lower s)) words = existsb (eq_nocase s) words.
Proof.
  induction 1 as [|x l Hx _ IH]; simpl; [reflexivity|].
  rewrite IH. f_equal. now apply lower_eqb_nocase.
Qed.

Lemma existsb_nocase_empty (words : list string) :
  Forall (fun x => x <> "") words -> existsb (eq_nocase "") words = false.
Proof.
  induction 1 as [|x l Hx _ IH]; [reflexivity|].
  destruct x; [congruence|]. simpl. exact IH.
Qed.

Lemma status_in_run (status : json) (s : string) (words : list string) (w : World) :
  gateway_status status = Some s ->
  Forall (fun x => lower x = x) words ->
  Forall (fun x => x <> "") words ->
  status_in status words w = (Return (existsb (eq_nocase s) words), w).
Proof.
  intros Hs Hl Hn. unfold status_in, gateway_status in *.
  destruct (truthy status) eqn:Ht.
  - destruct status; try discriminate. injection Hs as ->.
    cbn. now rewrite existsb_lower.
  - injection Hs as <-. unfold ret. now rewrite existsb_nocase_empty.
Qed.

Lemma status_in_raises (status : json) (words : list string) (w : World) :
  gateway_status status = None ->
  status_in status words w = (Raise (LibError (AttributeError status "lower")), w).
Proof.
  intros Hs. unfold status_in, gateway_status in *.
  destruct (truthy status); [|discriminate].
  destruct status; try discriminate; reflexivity.
Qed.

Lemma returns_only_ret {A} (v : A) : returns_only (ret v) v.
Proof. intros w a w' H. now injection H as <- _. Qed.

Lemma returns_only_raise {A} (e : exn) (v : A) : returns_only (raise e) v.
Proof. intros w a w' H. discriminate. Qed.

Lemma returns_only_bind {A B} (c : M A) (k : A -> M B) (v : B) :
  (forall a, returns_only (k a) v) -> returns_only (bind c k) v.
Proof.
  intros Hk w b w' H. unfold bind in H.
  destruct (c w) as [[a|e] w1]; [now apply (Hk a w1 b w') | discriminate].
Qed.

Lemma try_except_returns {A} (c : M A) (h : exn -> M A) (v : A) (w : World) :
  returns_only c v ->
  (forall e w1, fst (h e w1) = Return v) ->
  fst (try_except c h w) = Return v.
Proof.
  intros Hc Hh. unfold try_except.
  destruct (c w) as [[a|e] w1] eqn:E; [|apply Hh].
  simpl. f_equal. now apply (Hc w a w1).
Qed.


Lemma update_row_map {B} (g : Payment.t -> B) (pid : Z)
    (f : Payment.t -> Payment.t) (t : table) :
  (forall r, g (f r) = g r) -> map g (update_row pid f t) = map g t.
Proof.
  intros Hg. unfold update_row. rewrite map_map. apply map_ext. intros r.
  destruct (Payment.id r =? pid)%Z; [apply Hg | reflexivity].
Qed.

Lemma distinctZ_unique (t : table) (p r : Payment.t) :
  distinctZ (map Payment.id t) = true ->
  In p t -> In r t -> Payment.id r = Payment.id p -> r = p.
Proof.
  induction t as [|q t IH]; simpl; [tauto|].
  intros Hd Hp Hr E. apply andb_true_iff in Hd as [Hq Hd].
  apply negb_true_iff in Hq.
  assert (Hno : forall x, In x t -> Payment.id x <> Payment.id q).
  { intros x Hx Ex.
    assert (existsb (Z.eqb (Payment.id q)) (map Payment.id t) = true) as Hex.
    { apply existsb_exists. exists (Payment.id x). split.
      - now apply in_map.
      - apply Z.eqb_eq. congruence. }
    congruence. }
  destruct Hp as [<-|Hp], Hr as [<-|Hr]; auto.
  - exfalso. now apply (Hno r Hr).
  - exfalso. apply (Hno p Hp). congruence.
Qed.

Lemma update_row_fixed (pid : Z) (f : Payment.t -> Payment.t) (t : table) :
  (forall r, In r t -> Payment.id r = pid -> f r = r) ->
  update_row pid f t = t.
Proof.
  intros H. unfold update_row. rewrite <- (map_id t) at 2.
  apply map_ext_in. intros r Hr.
  destruct (Z.eqb_spec (Payment.id r) pid); [now apply H | reflexivity].
Qed.

Lemma filter_singleton_in {A} (f : A -> bool) (l : list A) (x : A) :
  filter f l = [x] -> In x l.
Proof.
  intros H. assert (Hx : In x (filter f l)) by (rewrite H; now left).
  now apply filter_In in Hx.
Qed.

Lemma violated_pk (t : table) : violated t = None -> pk_ok t = true.
Proof.
  unfold violated. destruct (pk_ok t); [reflexivity | discriminate].
Qed.


(** The first steps of [handle_webhook] on a payload that has an [order]
    object: the four [get]s and the test of the object. *)
Ltac enter_order Hoo :=
  match type of Hoo with
  | order_object ?payload = Some _ =>
      destruct payload as [| | | | | |?m]; try discriminate Hoo;
      simpl in Hoo;
      match type of Hoo with
      | context [dict_get ?m' "order"] =>
          let Hod := fresh "Hod" in
          destruct (dict_get m' "order") as [| | | | | |[|? ?]] eqn:Hod;
          try discriminate Hoo;
          injection Hoo as <-;
          unfold GeideaManager.handle_webhook, try_except;
          unfold bind at 1; unfold py_get at 1, ret at 1; rewrite Hod;
          cbn [truthy negb];
          do 3 (unfold bind at 1; unfold py_get at 1, ret at 1)
      end
  end.

Section WebhookFacts.
Context {platform : Platform}.

Lemma apply_status_run pid status oid s c t out ob :
  gateway_status status = Some s ->
  GeideaManager.apply_status pid status oid (mk_world c t out ob) =
    match webhook_write s oid with
    | inl e => (Raise e, mk_world c (update_row pid (Payment.set_status "SUCCESS") t) out ob)
    | inr f => (Return tt, mk_world c (update_row pid f t) out ob)
    end.
Proof.
  intros Hs. unfold GeideaManager.apply_status, webhook_write, map_status.
  unfold bind at 1. rewrite (status_in_run _ s) by (auto; repeat constructor; discriminate).
  cbn [existsb]. rewrite orb_false_r.
  destruct (eq_nocase s "success").
  - cbn -[update_row]. unfold assign_text.
    destruct (sqlite_adapt oid); cbn -[update_row]; try reflexivity.
    + now rewrite update_row_compose by (intros []; reflexivity).
    + now rewrite update_row_compose by (intros []; reflexivity).
  - unfold bind at 1. rewrite (status_in_run _ s) by (auto; repeat constructor; discriminate).
    cbn [existsb]. rewrite orb_false_r.
    destruct (eq_nocase s "failed" || eq_nocase s "declined"); [reflexivity|].
    unfold bind at 1. rewrite (status_in_run _ s) by (auto; repeat constructor; discriminate).
    cbn [existsb]. rewrite orb_false_r.
    destruct (eq_nocase s "cancelled" || eq_nocase s "canceled"); reflexivity.
Qed.

Lemma handle_webhook_found c t out ob payload p s o :
  order_object payload = Some o ->
  truthy (dict_get o "merchantReferenceId") = true ->
  sqlite_adapt (dict_get o "merchantReferenceId")
  = SqlText (Payment.merchant_reference_id p) ->
  filter (fun q => Payment.merchant_reference_id q
                   =? Payment.merchant_reference_id p) t = [p] ->
  gateway_status (dict_get o "status") = Some s ->
  GeideaManager.handle_webhook payload (mk_world c t out ob) =
    match webhook_write s (dict_get o "orderId") with
    | inl e => (Return JNull, mk_world c c (out ++ [webhook_log e]) ob)
    | inr f =>
        let t' := update_row (Payment.id p) f t in
        match violated t' with
        | None => (Return JNull, mk_world t' t' out ob)
        | Some k => (Return JNull, mk_world c c (out ++ [webhook_log (LibError (IntegrityError k))]) ob)
        end
    end.
Proof.
  intros Ho Ht Ha Hf Hs.
  enter_order Ho.
  rewrite Ht. cbn [negb].
  unfold bind at 1. unfold GeideaManager.select_by_merchant_reference. rewrite Ha.
  unfold bind at 1. unfold get_working at 1. cbn [working]. unfold ret at 1.
  rewrite Hf.
  unfold bind at 1. unfold scalar_one_or_none, ret at 1.
  unfold bind at 1. rewrite (apply_status_run _ _ _ s) by assumption.
  destruct (webhook_write s _) as [e|f].
  - reflexivity.
  - unfold bind at 1. unfold commit at 1. cbn [working stdout outbox committed].
    cbv zeta. destruct (violated (update_row (Payment.id p) f t)); reflexivity.
Qed.

(** C4: a payload without an [order] object, without a merchant reference,
    or whose merchant reference no stored payment carries, is rejected with
    no state change: [handle_webhook] returns normally (no fault escapes),
    the table is as before (no row created, none changed), nothing is sent,
    and the rejection is printed. *)
Theorem webhook_rejection_no_state_change (t : table) (out : list string)
    (ob : list http_request) (payload : json) :
  rejected_payload t payload ->
  exists e,
    GeideaManager.handle_webhook payload (mk_world t t out ob)
    = (Return JNull, mk_world t t (out ++ [webhook_log e]) ob).
Proof.
  intros [Ho | Ho Hm | Ho Hm Hu].
  - (* no order object *)
    destruct payload as [| | | | | |m];
      try (eexists; reflexivity).
    simpl in Ho. unfold GeideaManager.handle_webhook, try_except.
    unfold bind at 1. unfold py_get at 1, ret at 1.
    destruct (dict_get m "order") as [| [|] | z | x | s | l | od] eqn:Hod;
      try (eexists; reflexivity).
    + cbn [truthy]. destruct (z =? 0)%Z; eexists; reflexivity.
    + cbn [truthy]. destruct (float_truthy x); eexists; reflexivity.
    + cbn [truthy]. destruct (s =? ""); eexists; reflexivity.
    + destruct l; eexists; reflexivity.
    + destruct od; [eexists; reflexivity | discriminate].
  - (* no merchant reference *)
    unfold webhook_field in Hm.
    destruct (order_object payload) as [o|] eqn:Hoo; [|congruence].
    enter_order Hoo.
    rewrite Hm. eexists; reflexivity.
  - (* a reference that no row carries *)
    unfold webhook_field in Hm, Hu.
    destruct (order_object payload) as [o|] eqn:Hoo; [|congruence].
    enter_order Hoo.
    rewrite Hm. cbn [negb].
    unfold bind at 1. unfold GeideaManager.select_by_merchant_reference.
    destruct (sqlite_adapt _) as [| |ref] eqn:Ha;
      try (eexists; reflexivity).
    unfold bind at 1. unfold get_working at 1, ret at 1. cbn [working].
    assert (Hnil : filter (fun q => Payment.merchant_reference_id q =? ref) t = []).
    { clear -Hu. induction t as [|q t IH]; [reflexivity|]. simpl.
      destruct (String.eqb_spec (Payment.merchant_reference_id q) ref) as [E|E].
      - exfalso. apply (Hu q); [now left | now rewrite E].
      - apply IH. intros p Hp. apply Hu. now right. }
    rewrite Hnil. eexists; reflexivity.
Qed.

Lemma handle_webhook_returns_none (payload : json) (w : World) :
  fst (GeideaManager.handle_webhook payload w) = Return JNull.
Proof.
  unfold GeideaManager.handle_webhook. apply try_except_returns.
  - apply returns_only_bind. intros order_data.
    destruct (negb (truthy order_data)); [apply returns_only_raise|].
    do 3 (apply returns_only_bind; intro).
    destruct (negb (truthy a)); [apply returns_only_raise|].
    do 2 (apply returns_only_bind; intro).
    destruct a3; [|apply returns_only_raise].
    do 2 (apply returns_only_bind; intro). apply returns_only_ret.
  - reflexivity.
Qed.

(** C9 (amended): [handle_webhook] returns [None] on every payload and
    every state, whether it reconciled the payment or failed; a failure is
    rolled back and printed, not reported.  The endpoint answers every JSON
    body with the same success document, so a failure never makes the
    gateway resend. *)
Theorem webhook_outcome_not_reported (payload : json) (w : World) :
  fst (GeideaManager.handle_webhook payload w) = Return JNull
  /\ fst (geidea_router.geidea_webhook (Some payload) w)
     = Return (JObj [("status", JStr "success");
                     ("message", JStr "Webhook processed successfully")]).
Proof.
  split; [apply handle_webhook_returns_none|].
  unfold geidea_router.geidea_webhook, try_except.
  unfold bind at 1. unfold geidea_router.request_json, ret at 1.
  unfold bind at 1.
  pose proof (handle_webhook_returns_none payload w) as H.
  destruct (GeideaManager.handle_webhook payload w) as [[a|e] w1];
    simpl in H; [reflexivity | discriminate].
Qed.


Lemma webhook_write_id (s : string) (oid : json) (f : Payment.t -> Payment.t) :
  webhook_write s oid = inr f -> forall r, Payment.id (f r) = Payment.id r.
Proof.
  unfold webhook_write. intros H r.
  destruct (map_status s =? "SUCCESS");
    [destruct (sqlite_adapt oid); try discriminate|];
    injection H as <-; reflexivity.
Qed.

Lemma webhook_write_status (s : string) (oid : json) (f : Payment.t -> Payment.t) :
  webhook_write s oid = inr f ->
  forall r, Payment.status (f r) = map_status s
    /\ sql_of_option (Payment.geidea_order_id (f r))
       = if map_status s =? "SUCCESS" then sqlite_adapt oid
         else sql_of_option (Payment.geidea_order_id r).
Proof.
  unfold webhook_write. intros H r.
  destruct (String.eqb_spec (map_status s) "SUCCESS") as [E|E].
  - rewrite E. destruct (sqlite_adapt oid); try discriminate;
      injection H as <-; split; reflexivity.
  - injection H as <-. split; reflexivity.
Qed.

Lemma after_webhook_found (t : table) (payload : json) (p : Payment.t) (s : string) :
  references t payload p ->
  gateway_status (webhook_field payload "status") = Some s ->
  after_webhook t payload =
    match webhook_write s (webhook_field payload "orderId") with
    | inr f =>
        if table_ok (update_row (Payment.id p) f t)
        then update_row (Payment.id p) f t else t
    | inl _ => t
    end.
Proof.
  intros (Ho & Ht & Ha & Hf) Hs. unfold after_webhook, world_of.
  unfold webhook_field in *.
  destruct (order_object payload) as [o|] eqn:Hoo; [|congruence].
  rewrite (handle_webhook_found t t [] [] payload p s o) by assumption.
  destruct (webhook_write s (dict_get o "orderId")) as [e|f]; [reflexivity|].
  cbv zeta. unfold table_ok.
  destruct (violated (update_row (Payment.id p) f t)); reflexivity.
Qed.

(** X6: a status that holds something other than text (a number, a
    list) makes [.lower()] raise: nothing is written on the payment that the
    payload references. *)
Lemma after_webhook_status_not_text (t : table) (payload : json)
    (p : Payment.t) :
  references t payload p ->
  gateway_status (webhook_field payload "status") = None ->
  after_webhook t payload = t.
Proof.
  intros (Ho & Ht & Ha & Hf) Hs. unfold after_webhook, world_of.
  unfold webhook_field in *.
  destruct (order_object payload) as [o|] eqn:Hoo; [|congruence].
  enter_order Hoo.
  rewrite Ht. cbn [negb].
  unfold bind at 1. unfold GeideaManager.select_by_merchant_reference.
  rewrite Ha.
  unfold bind at 1. unfold get_working at 1, ret at 1. cbn [working].
  rewrite Hf.
  unfold bind at 1. unfold scalar_one_or_none, ret at 1.
  unfold bind at 1. unfold GeideaManager.apply_status.
  unfold bind at 1. rewrite status_in_raises by assumption.
  reflexivity.
Qed.

(** C1 (amended): for a payment in a terminal state that a webhook
    references, a payload that maps to the status the payment has (and, for
    SUCCESS, carries the order id it has) leaves the table unchanged: a
    duplicate is an idempotent no-op.  A conflicting payload that the table
    accepts overwrites the status with the mapped one. *)
Theorem terminal_payment_webhook (t : table) (payload : json)
    (p : Payment.t) (s : string) :
  references t payload p ->
  terminal (Payment.status p) = true ->
  gateway_status (webhook_field payload "status") = Some s ->
  (map_status s = Payment.status p ->
   (map_status s = "SUCCESS" ->
    sqlite_adapt (webhook_field payload "orderId")
    = sql_of_option (Payment.geidea_order_id p)) ->
   after_webhook t payload = t)
  /\ (forall f,
        webhook_write s (webhook_field payload "orderId") = inr f ->
        table_ok (update_row (Payment.id p) f t) = true ->
        after_webhook t payload = update_row (Payment.id p) f t
        /\ In (f p) (after_webhook t payload)
        /\ Payment.status (f p) = map_status s).
Proof.
  intros Href _ Hs. rewrite (after_webhook_found t payload p s Href Hs).
  pose proof (filter_singleton_in _ _ _ (proj2 (proj2 (proj2 Href)))) as Hin.
  split.
  - intros Hsame Hoid.
    destruct (webhook_write s (webhook_field payload "orderId")) as [e|f] eqn:Hw;
      [reflexivity|].
    destruct (table_ok (update_row (Payment.id p) f t)) eqn:Hok; [|reflexivity].
    apply update_row_fixed. intros r Hr Er.
    apply violated_none_ok, violated_pk in Hok. unfold pk_ok in Hok.
    rewrite (update_row_map Payment.id _ _ _ (webhook_write_id _ _ _ Hw)) in Hok.
    rewrite (distinctZ_unique t p r Hok Hin Hr Er).
    destruct (webhook_write_status _ _ _ Hw p) as [Hst Hord].
    unfold webhook_write in Hw.
    destruct (String.eqb_spec (map_status s) "SUCCESS") as [E|E].
    + assert (Hp : Payment.status p = "SUCCESS") by congruence.
      rewrite (Hoid E) in Hw. clear - Hw Hp.
      destruct p as [i u a c m o]; cbn in *. subst.
      destruct o; injection Hw as <-; reflexivity.
    + injection Hw as <-. clear - Hsame.
      destruct p; cbn in *. now subst.
  - intros f Hw Hok. rewrite Hw, Hok. split; [reflexivity|]. split.
    + unfold update_row. apply in_map_iff. exists p. split; [|exact Hin].
      now rewrite Z.eqb_refl.
    + apply (webhook_write_status _ _ _ Hw p).
Qed.


(** C7 (amended): for a webhook that reaches a PENDING payment with a
    status text (or none), the status is mapped without regard to case and
    the update writes the mapped status, and the order id exactly when the
    mapped status is SUCCESS; the update is committed when the table accepts
    it, and nothing is written when the order id cannot be bound or is held
    by another payment. *)
Theorem pending_payment_webhook (t : table) (payload : json)
    (p : Payment.t) (s : string) :
  references t payload p ->
  Payment.status p = "PENDING" ->
  gateway_status (webhook_field payload "status") = Some s ->
  after_webhook t payload
  = match webhook_write s (webhook_field payload "orderId") with
    | inr f =>
        if table_ok (update_row (Payment.id p) f t)
        then update_row (Payment.id p) f t else t
    | inl _ => t
    end
  /\ (forall f,
        webhook_write s (webhook_field payload "orderId") = inr f ->
        Payment.status (f p) = map_status s
        /\ sql_of_option (Payment.geidea_order_id (f p))
           = (if map_status s =? "SUCCESS"
              then sqlite_adapt (webhook_field payload "orderId")
              else sql_of_option (Payment.geidea_order_id p))
        /\ (table_ok (update_row (Payment.id p) f t) = true ->
            In (f p) (after_webhook t payload))).
Proof.
  intros Href _ Hs. rewrite (after_webhook_found t payload p s Href Hs).
  split; [reflexivity|].
  intros f Hw. rewrite Hw.
  destruct (webhook_write_status _ _ _ Hw p) as [Hst Hord].
  repeat split; try assumption.
  intros ->. unfold update_row. apply in_map_iff. exists p. split.
  - now rewrite Z.eqb_refl.
  - apply (filter_singleton_in _ _ _ (proj2 (proj2 (proj2 Href)))).
Qed.

End WebhookFacts.

(** *** The webhook claims on the sample data *)

Section WebhookSamples.
#[local] Existing Instance Sample.platform.

Lemma sample_references_paid (status : string) :
  references [Sample.paid; Sample.pending]
             (Sample.webhook "ref-1" "ord_9" status) Sample.paid.
Proof. repeat split; try reflexivity. discriminate. Defined.

Lemma sample_references_pending (order_id status : string) :
  references [Sample.paid; Sample.pending]
             (Sample.webhook "ref-2" order_id status) Sample.pending.
Proof. repeat split; try reflexivity. discriminate. Defined.

(** C1, as stated, fails: a payment that is SUCCESS and receives a webhook
    claiming "Failed" for its merchant reference becomes FAILED. *)
Lemma terminal_status_overwritten :
  ~ terminal_unchanged_claim [Sample.paid; Sample.pending]
      (Sample.webhook "ref-1" "ord_9" "Failed") Sample.paid.
Proof.
  intros H.
  specialize (H (sample_references_paid "Failed") eq_refl
                (Payment.set_status "FAILED" Sample.paid)).
  destruct H as [H _]; [now left | reflexivity | discriminate H].
Qed.

Lemma terminal_payment_webhook_witness :
  (references [Sample.paid; Sample.pending]
     (Sample.webhook "ref-1" "ord_9" "Failed") Sample.paid
   /\ terminal (Payment.status Sample.paid) = true
   /\ gateway_status
        (webhook_field (Sample.webhook "ref-1" "ord_9" "Failed") "status")
      = Some "Failed")
  /\ after_webhook [Sample.paid; Sample.pending]
       (Sample.webhook "ref-1" "ord_9" "Failed")
     = [Payment.set_status "FAILED" Sample.paid; Sample.pending].
Proof.
  split.
  - split; [apply sample_references_paid | split; reflexivity].
  - apply (proj2 (terminal_payment_webhook
                    [Sample.paid; Sample.pending]
                    (Sample.webhook "ref-1" "ord_9" "Failed")
                    Sample.paid "Failed"
                    (sample_references_paid "Failed") eq_refl eq_refl)
                 (Payment.set_status "FAILED") eq_refl eq_refl).
Defined.

(** C7, as stated, fails: a PENDING payment whose "Success" webhook
    carries the order id of another payment stays PENDING, because
    [geidea_order_id] is unique. *)
Lemma pending_not_written_on_order_id_collision :
  ~ pending_written_claim [Sample.paid; Sample.pending]
      (Sample.webhook "ref-2" "ord_9" "Success") Sample.pending "Success".
Proof.
  intros H.
  destruct (H (sample_references_pending "ord_9" "Success") eq_refl eq_refl)
    as (p' & Hin & Hid & Hst).
  change (after_webhook [Sample.paid; Sample.pending]
            (Sample.webhook "ref-2" "ord_9" "Success"))
    with [Sample.paid; Sample.pending] in Hin.
  destruct Hin as [<- | [<- | []]]; discriminate.
Qed.

Lemma pending_payment_webhook_witness :
  (references [Sample.paid; Sample.pending]
     (Sample.webhook "ref-2" "ord_10" "SUCCESS") Sample.pending
   /\ Payment.status Sample.pending = "PENDING"
   /\ gateway_status
        (webhook_field (Sample.webhook "ref-2" "ord_10" "SUCCESS") "status")
      = Some "SUCCESS")
  /\ after_webhook [Sample.paid; Sample.pending]
       (Sample.webhook "ref-2" "ord_10" "SUCCESS")
     = [Sample.paid;
        Payment.set_geidea_order_id (Some "ord_10")
          (Payment.set_status "SUCCESS" Sample.pending)].
Proof.
  split.
  - split; [apply sample_references_pending | split; reflexivity].
  - apply (proj1 (pending_payment_webhook
                    [Sample.paid; Sample.pending]
                    (Sample.webhook "ref-2" "ord_10" "SUCCESS")
                    Sample.pending "SUCCESS"
                    (sample_references_pending "ord_10" "SUCCESS")
                    eq_refl eq_refl)).
Defined.

Lemma webhook_rejection_no_state_change_witness :
  rejected_payload [Sample.paid] (Sample.webhook "ref-7" "ord_1" "Success")
  /\ exists e,
       GeideaManager.handle_webhook (Sample.webhook "ref-7" "ord_1" "Success")
         (mk_world [Sample.paid] [Sample.paid] [] [])
       = (Return JNull,
          mk_world [Sample.paid] [Sample.paid] ([] ++ [webhook_log e]) []).
Proof.
  assert (H : rejected_payload [Sample.paid]
                (Sample.webhook "ref-7" "ord_1" "Success")).
  { apply unknown_reference; [discriminate | reflexivity |].
    intros p [<- | []]. discriminate. }
  split; [exact H|].
  apply (webhook_rejection_no_state_change [Sample.paid] [] [] _ H).
Defined.

(** C9, as stated, fails: on the table holding the pending payment, the
    webhook that reconciles it and the payload without [order] that fails
    give their caller the same value, and the endpoint the same answer. *)
Lemma webhook_failure_not_distinguishable :
  after_webhook [Sample.pending] (Sample.webhook "ref-2" "ord_10" "Success")
  = [Payment.set_geidea_order_id (Some "ord_10")
       (Payment.set_status "SUCCESS" Sample.pending)]
  /\ stdout (snd (GeideaManager.handle_webhook (JObj [])
                    (world_of [Sample.pending])))
     = ["[Geidea Webhook] Error handling webhook: Invalid webhook: Missing 'order' data"]
  /\ ~ outcome_reported (world_of [Sample.pending])
         (Sample.webhook "ref-2" "ord_10" "Success") (JObj [])
  /\ fst (geidea_router.geidea_webhook
            (Some (Sample.webhook "ref-2" "ord_10" "Success"))
            (world_of [Sample.pending]))
     = fst (geidea_router.geidea_webhook (Some (JObj []))
              (world_of [Sample.pending])).
Proof.
  repeat split. intros H. now apply H.
Qed.

End WebhookSamples.

(** ** The status query (spec 4.3 and 4.4) *)

Section StatusQuery.
Context {platform : Platform}.

Lemma filter_nil {A} (f : A -> bool) (l : list A) :
  (forall x, In x l -> f x = false) -> filter f l = [].
Proof.
  induction l as [|x l IH]; intros H; [reflexivity|]. simpl.
  rewrite (H x (or_introl eq_refl)). apply IH. intros y Hy. apply H. now right.
Qed.

Lemma get_payment_status_not_found (pid : Z) (u : User.t) (w : World) :
  fits_int64 pid = true ->
  filter (fun p => (Payment.id p =? pid)%Z
                   && (Payment.user_id p =? User.id u)%Z) (working w) = [] ->
  GeideaManager.get_payment_by_id u pid w = (Return None, w)
  /\ geidea_router.get_payment_status pid u w
     = (Raise (HTTPException 404 "Payment not found"), w).
Proof.
  intros Hfit H.
  assert (E : GeideaManager.get_payment_by_id u pid w = (Return None, w)).
  { unfold GeideaManager.get_payment_by_id, try_except, bind, get_working.
    cbn [working]. now rewrite Hfit, H. }
  split; [exact E|].
  unfold geidea_router.get_payment_status, try_except, bind. now rewrite E.
Qed.

(* An id of more than 64 bits: the driver's exception becomes status 500. *)
Lemma get_payment_status_unbound (pid : Z) (u : User.t) (w : World) :
  fits_int64 pid = false ->
  GeideaManager.get_payment_by_id u pid w = (Raise (unbound_id_fault pid), w)
  /\ geidea_router.get_payment_status pid u w
     = (Raise (unbound_id_fault pid), w).
Proof.
  intros Hfit.
  assert (E : GeideaManager.get_payment_by_id u pid w
              = (Raise (unbound_id_fault pid), w)).
  { unfold GeideaManager.get_payment_by_id, try_except, bind, get_working.
    now rewrite Hfit. }
  split; [exact E|].
  unfold geidea_router.get_payment_status, try_except, bind. now rewrite E.
Qed.

(* The rows the query selects are rows of the caller. *)
Lemma filter_own_rows (pid : Z) (u : User.t) (t : table) :
  filter (fun p => (Payment.id p =? pid)%Z
                   && (Payment.user_id p =? User.id u)%Z) (own_rows u t)
  = filter (fun p => (Payment.id p =? pid)%Z
                     && (Payment.user_id p =? User.id u)%Z) t.
Proof.
  unfold own_rows. induction t as [|q t IH]; [reflexivity|]. cbn [filter].
  destruct (Payment.user_id q =? User.id u)%Z eqn:E.
  - cbn [filter]. rewrite E, IH. reflexivity.
  - rewrite andb_false_r. exact IH.
Qed.

(* What a user is answered does not depend on the payments of the others. *)
Lemma get_payment_status_own_rows (pid : Z) (u : User.t) (w : World) :
  fst (geidea_router.get_payment_status pid u w)
  = fst (geidea_router.get_payment_status pid u (without_others u w)).
Proof.
  unfold geidea_router.get_payment_status, GeideaManager.get_payment_by_id,
    try_except, bind, get_working, without_others.
  cbn [working]. rewrite filter_own_rows.
  destruct (fits_int64 pid); [|reflexivity].
  unfold scalar_one_or_none.
  destruct (filter _ (working w)) as [|x [|y l]]; reflexivity.
Qed.

(** C8: a status query by a user who does not own the payment finds
    nothing: the lookup itself selects on the owner, the endpoint answers
    404 "Payment not found", and the answer is the one given for an id that
    no payment has.  For every id, of whatever size, the answer is the one
    the user would get if the payments of the others were not there. *)
Theorem status_query_scoped_to_owner (w : World) (p : Payment.t)
    (a b : User.t) :
  pk_ok (working w) = true ->
  In p (working w) ->
  fits_int64 (Payment.id p) = true ->
  Payment.user_id p = User.id a ->
  User.id b <> User.id a ->
  GeideaManager.get_payment_by_id b (Payment.id p) w = (Return None, w)
  /\ geidea_router.get_payment_status (Payment.id p) b w
     = (Raise (HTTPException 404 "Payment not found"), w)
  /\ (forall missing,
        fits_int64 missing = true ->
        (forall q, In q (working w) -> Payment.id q <> missing) ->
        geidea_router.get_payment_status (Payment.id p) b w
        = geidea_router.get_payment_status missing b w)
  /\ (forall pid,
        fst (geidea_router.get_payment_status pid b w)
        = fst (geidea_router.get_payment_status pid b (without_others b w)))
  /\ (forall pid,
        fits_int64 pid = false ->
        geidea_router.get_payment_status pid b w
        = (Raise (unbound_id_fault pid), w)).
Proof.
  intros Hpk Hin Hfit Hown Hab.
  assert (H1 : filter (fun q => (Payment.id q =? Payment.id p)%Z
                         && (Payment.user_id q =? User.id b)%Z) (working w) = []).
  { apply filter_nil. intros q Hq. apply andb_false_iff.
    destruct (Z.eqb_spec (Payment.id q) (Payment.id p)) as [E|E]; [right|now left].
    rewrite (distinctZ_unique (working w) p q Hpk Hin Hq E).
    apply Z.eqb_neq. congruence. }
  destruct (get_payment_status_not_found _ b w Hfit H1) as [Ha Hb].
  split; [exact Ha|]. split; [exact Hb|]. split; [|split].
  - intros missing Hm Hmiss.
    assert (H2 : filter (fun q => (Payment.id q =? missing)%Z
                           && (Payment.user_id q =? User.id b)%Z) (working w)
                 = []).
    { apply filter_nil. intros q Hq. apply andb_false_iff. left.
      apply Z.eqb_neq. now apply Hmiss. }
    destruct (get_payment_status_not_found _ b w Hm H2) as [_ Hc].
    congruence.
  - intros pid. apply get_payment_status_own_rows.
  - intros pid Hpid. apply get_payment_status_unbound, Hpid.
Qed.
End StatusQuery.


Section StatusQuerySample.
#[local] Existing Instance Sample.platform.
Lemma status_query_scoped_to_owner_witness :
  (pk_ok (working (world_of [Sample.paid; Sample.pending])) = true
   /\ In Sample.paid (working (world_of [Sample.paid; Sample.pending]))
   /\ fits_int64 (Payment.id Sample.paid) = true
   /\ Payment.user_id Sample.paid = User.id Sample.alice
   /\ User.id Sample.bob <> User.id Sample.alice)
  /\ geidea_router.get_payment_status 1 Sample.bob
       (world_of [Sample.paid; Sample.pending])
     = (Raise (HTTPException 404 "Payment not found"),
        world_of [Sample.paid; Sample.pending]).
Proof.
  assert (Hb : User.id Sample.bob <> User.id Sample.alice) by discriminate.
  split.
  - repeat split; try assumption. now left.
  - apply (proj1 (proj2 (status_query_scoped_to_owner
             (world_of [Sample.paid; Sample.pending]) Sample.paid
             Sample.alice Sample.bob eq_refl (or_introl eq_refl) eq_refl
             eq_refl Hb))).
Defined.
End StatusQuerySample.

(** ** Session creation *)

Lemma next_id_above (t : table) (q : Payment.t) :
  In q t -> (Payment.id q < GeideaManager.next_id t)%Z.
Proof.
  unfold GeideaManager.next_id.
  induction t as [|x t IH]; cbn [map fold_right In]; [tauto|].
  intros [<- | H]; [lia|]. specialize (IH H). lia.
Qed.

Lemma update_row_last (pid : Z) (t : table) (p : Payment.t)
    (f : Payment.t -> Payment.t) :
  pid = GeideaManager.next_id t -> Payment.id p = pid ->
  update_row pid f (t ++ [p]) = t ++ [f p].
Proof.
  intros Hpid Hp. unfold update_row. rewrite map_app. simpl.
  rewrite Hp, Z.eqb_refl. f_equal.
  rewrite <- (map_id t) at 2. apply map_ext_in. intros q Hq.
  apply next_id_above in Hq.
  destruct (Z.eqb_spec (Payment.id q) pid); [lia | reflexivity].
Qed.

Lemma violated_ext (t1 t2 : table) :
  map Payment.id t1 = map Payment.id t2 ->
  map Payment.merchant_reference_id t1 = map Payment.merchant_reference_id t2 ->
  map Payment.geidea_order_id t1 = map Payment.geidea_order_id t2 ->
  violated t1 = violated t2.
Proof.
  intros H1 H2 H3.
  unfold violated, pk_ok, merchant_reference_ok, geidea_order_ok.
  now rewrite H1, H2, H3.
Qed.

Lemma try_except_raises_500 {A} (c : M A) (h : exn -> M A) (w : World) (e : exn) :
  (forall e1 w1, exists d w2, h e1 w1 = (Raise (HTTPException 500 d), w2)) ->
  fst (try_except c h w) = Raise e -> exists d, e = HTTPException 500 d.
Proof.
  intros Hh. unfold try_except.
  destruct (c w) as [[a|e1] w1]; simpl; [discriminate|].
  destruct (Hh e1 w1) as (d & w2 & ->). simpl. intros H.
  injection H as <-. now exists d.
Qed.

Lemma bind_seq3 {A} (a b c : M unit) (k : M A) (w : World) :
  (a ;;; b ;;; c ;;; k) w = ((a ;;; b ;;; c) ;;; k) w.
Proof.
  unfold bind. destruct (a w) as [[[]|e] w1]; [|reflexivity].
  destruct (b w1) as [[[]|e] w2]; [|reflexivity].
  destruct (c w2) as [[[]|e] w3]; reflexivity.
Qed.


Lemma response_object_json (r : http_response) (m : list (string * json)) :
  response_object r = Some m -> resp_json r = Some (JObj m).
Proof.
  unfold response_object. destruct (resp_json r) as [[]|]; congruence.
Qed.

Lemma post_outcome_table `{Platform} (pid : Z) (r : post_result) (t : table) :
  snd (post_outcome pid r t) = t
  \/ exists o, snd (post_outcome pid r t)
               = update_row pid (Payment.set_geidea_session_id o) t.
Proof.
  unfold post_outcome, answer_outcome, attach_session.
  repeat match goal with
         | |- context [match ?x with _ => _ end] => destruct x
         end; simpl; eauto.
Qed.

Section SessionFacts.
Context {platform : Platform}.
Variable settings : Settings.
Variable env : Env.

Lemma commit_clean (c t : table) (out : list string) (ob : list http_request) :
  commit (mk_world c t out ob)
  = match violated t with
    | None => (Return tt, mk_world t t out ob)
    | Some k => (Raise (LibError (IntegrityError k)), mk_world c t out ob)
    end.
Proof. unfold commit. cbn [working stdout outbox]. now destruct (violated t). Qed.

Lemma create_geidea_session_run (p : Payment.t) (language : string)
    (order shipping : option json) (t : table) (out : list string)
    (ob : list http_request) :
  credentials_configured settings = true ->
  let req := GeideaManager.session_request settings env p language order shipping in
  GeideaManager.create_geidea_session settings env p language order shipping
    (mk_world t t out ob)
  = (fst (post_outcome (Payment.id p) (post env req) t),
     mk_world (snd (post_outcome (Payment.id p) (post env req) t))
              (snd (post_outcome (Payment.id p) (post env req) t))
              out (ob ++ [req])).
Proof.
  intros Hc req. unfold credentials_configured in Hc.
  apply negb_true_iff in Hc.
  unfold GeideaManager.create_geidea_session, try_except. rewrite Hc.
  unfold bind at 1. unfold GeideaManager.client_post at 1.
  cbn [committed working stdout outbox]. fold req.
  unfold post_outcome.
  destruct (post env req) as [exc|resp]; [reflexivity|].
  destruct (400 <=? resp_status_code resp)%Z; [reflexivity|].
  unfold bind at 1. unfold GeideaManager.response_json.
  destruct (resp_json resp) as [v|]; [|reflexivity].
  unfold ret at 1.
  destruct v as [| | | | | |m]; try reflexivity.
  do 2 (unfold bind at 1; unfold py_get at 1, ret at 1).
  unfold answer_outcome, codes_ok, detail_message.
  rewrite negb_andb.
  destruct (negb (eq_str (dict_get m "responseCode") "000")
            || negb (eq_str (dict_get m "detailedResponseCode") "000"
                     || eq_str (dict_get m "detailedResponseCode") "00000"
                     || is_none (dict_get m "detailedResponseCode"))) eqn:Hcodes.
  - reflexivity.
  - unfold bind at 1. unfold py_get at 1, ret at 1.
    unfold bind at 1.
    destruct (py_or (dict_get m "session") (JObj [])) as [| | | | | |s];
      try reflexivity.
    unfold py_get at 1, ret at 1.
    destruct (negb (truthy (dict_get s "id"))); [reflexivity|].
    unfold bind at 1. unfold assign_text, attach_session.
    destruct (sqlite_adapt (dict_get s "id")) as [| |x]; [reflexivity| |].
    + unfold assign, bind at 1, get_working, put_working.
      cbn [working committed stdout outbox].
      unfold bind at 1. rewrite commit_clean.
      destruct (violated _); reflexivity.
    + unfold assign, bind at 1, get_working, put_working.
      cbn [working committed stdout outbox].
      unfold bind at 1. rewrite commit_clean.
      destruct (violated _); reflexivity.
Qed.
Lemma with_payloads_keys (order shipping : option json) (p : Payment.t) :
  Payment.id (with_payloads order shipping p) = Payment.id p
  /\ Payment.merchant_reference_id (with_payloads order shipping p)
     = Payment.merchant_reference_id p
  /\ Payment.geidea_order_id (with_payloads order shipping p)
     = Payment.geidea_order_id p
  /\ Payment.status (with_payloads order shipping p) = Payment.status p
  /\ Payment.geidea_session_id (with_payloads order shipping p)
     = Payment.geidea_session_id p
  /\ Payment.currency (with_payloads order shipping p) = Payment.currency p
  /\ Payment.amount (with_payloads order shipping p) = Payment.amount p.
Proof. destruct order, shipping; repeat split. Qed.

Lemma violated_with_payloads (order shipping : option json) (t : table)
    (p : Payment.t) :
  violated (t ++ [with_payloads order shipping p]) = violated (t ++ [p]).
Proof.
  destruct (with_payloads_keys order shipping p) as (H1 & H2 & H3 & _).
  apply violated_ext; rewrite !map_app; simpl; congruence.
Qed.

Lemma create_payment_record_run (user : User.t) (amount : pyfloat)
    (currency : string) (t : table) (out : list string)
    (ob : list http_request) :
  let p := new_payment env user t amount currency in
  GeideaManager.create_payment_record env user amount currency
    (mk_world t t out ob)
  = match violated (t ++ [p]) with
    | None => (Return p, mk_world (t ++ [p]) (t ++ [p]) out ob)
    | Some k =>
        (Raise (HTTPException 500
                  ("Failed to create payment record: "
                     +++ exn_str (LibError (IntegrityError k)))),
         mk_world t t out ob)
    end.
Proof.
  intros p. unfold GeideaManager.create_payment_record, try_except.
  unfold bind at 1. unfold get_working at 1. cbn [working].
  unfold bind at 1. unfold put_working at 1. cbn [committed stdout outbox].
  unfold bind at 1. rewrite commit_clean. fold (new_payment env user t amount currency).
  fold p. destruct (violated (t ++ [p])); reflexivity.
Qed.

Lemma create_payment_session_stages (user : User.t) (amount : pyfloat)
    (currency language : string) (order shipping : option json)
    (t : table) (out : list string) (ob : list http_request) :
  let p := new_payment env user t amount currency in
  let row := with_payloads order shipping p in
  table_ok (t ++ [p]) = true ->
  GeideaManager.create_payment_session settings env user amount currency
    language order shipping (mk_world t t out ob)
  = match GeideaManager.create_geidea_session settings env p language order
            shipping (mk_world (t ++ [row]) (t ++ [row]) out ob) with
    | (Return sid, w') => (Return (sid, Payment.id p), w')
    | (Raise e, w') =>
        (Raise (HTTPException 500
                  ("Failed to create payment session: " +++ exn_str e)),
         mk_world (committed w') (committed w') (stdout w') (outbox w'))
    end.
Proof.
  intros p row Hok.
  apply violated_none_ok in Hok.
  unfold GeideaManager.create_payment_session, try_except.
  unfold bind at 1. rewrite create_payment_record_run. fold p. rewrite Hok.
  assert (Hrow : (GeideaManager.assign_dumps (Payment.id p) order
                    Payment.set_order_payload;;;
                  GeideaManager.assign_dumps (Payment.id p) shipping
                    Payment.set_shipping_address_payload;;;
                  commit)
                   (mk_world (t ++ [p]) (t ++ [p]) out ob)
                 = (Return tt, mk_world (t ++ [row]) (t ++ [row]) out ob)).
  { assert (Hid : Payment.id p = GeideaManager.next_id t) by reflexivity.
    clearbody p. unfold row, with_payloads, GeideaManager.assign_dumps.
    destruct order as [o|], shipping as [s|];
      unfold bind, assign, ret, get_working, put_working;
      cbn -[update_row commit violated app Payment.set_order_payload
            Payment.set_shipping_address_payload];
      rewrite ?(update_row_last (Payment.id p))
        by (first [assumption | now destruct p]);
      rewrite commit_clean.
    - pose proof (violated_with_payloads (Some o) (Some s) t p) as Hv.
      unfold with_payloads in Hv. now rewrite Hv, Hok.
    - pose proof (violated_with_payloads (Some o) None t p) as Hv.
      unfold with_payloads in Hv. now rewrite Hv, Hok.
    - pose proof (violated_with_payloads None (Some s) t p) as Hv.
      unfold with_payloads in Hv. now rewrite Hv, Hok.
    - now rewrite Hok. }
  rewrite bind_seq3. unfold bind at 1. rewrite Hrow.
  unfold bind at 1.
  destruct (GeideaManager.create_geidea_session settings env p language order
              shipping (mk_world (t ++ [row]) (t ++ [row]) out ob))
    as [[sid|e] w']; reflexivity.
Qed.

Lemma create_geidea_session_unconfigured (p : Payment.t) (language : string)
    (order shipping : option json) (w : World) :
  credentials_configured settings = false ->
  GeideaManager.create_geidea_session settings env p language order shipping w
  = (Raise (HTTPException 500
              "Geidea credentials are not configured on the server"), w).
Proof.
  intros Hc. unfold credentials_configured in Hc.
  apply negb_false_iff in Hc.
  unfold GeideaManager.create_geidea_session, try_except. now rewrite Hc.
Qed.

Lemma create_payment_session_run (user : User.t) (amount : pyfloat)
    (currency language : string) (order shipping : option json)
    (t : table) (out : list string) (ob : list http_request) :
  let p := new_payment env user t amount currency in
  let row := with_payloads order shipping p in
  let req := sent_request settings env user t amount currency language order
               shipping in
  let po := post_outcome (Payment.id p) (post env req) (t ++ [row]) in
  table_ok (t ++ [p]) = true ->
  credentials_configured settings = true ->
  GeideaManager.create_payment_session settings env user amount currency
    language order shipping (mk_world t t out ob)
  = (match fst po with
     | Return sid => Return (sid, Payment.id p)
     | Raise e =>
         Raise (HTTPException 500
                  ("Failed to create payment session: " +++ exn_str e))
     end,
     mk_world (snd po) (snd po) out (ob ++ [req])).
Proof.
  intros p row req po Hok Hc.
  rewrite create_payment_session_stages by assumption.
  rewrite (create_geidea_session_run _ language order shipping _ out ob Hc).
  fold p row. change (GeideaManager.session_request settings env p language
                        order shipping) with req.
  fold po. destruct (fst po); reflexivity.
Qed.
Lemma gateway_failure_raises (pid : Z) (r : post_result) (t : table) :
  gateway_failure r ->
  exists e, post_outcome pid r t = (Raise e, t).
Proof.
  intros [exc | resp Hs | resp m Hs Hm Hc | resp m Hs Hm Hc Hid];
    unfold post_outcome.
  - eexists; reflexivity.
  - rewrite (proj2 (Z.leb_le _ _) Hs). eexists; reflexivity.
  - rewrite (proj2 (Z.leb_gt _ _) Hs), (response_object_json _ _ Hm).
    unfold answer_outcome. rewrite Hc. eexists; reflexivity.
  - rewrite (proj2 (Z.leb_gt _ _) Hs), (response_object_json _ _ Hm).
    unfold answer_outcome. rewrite Hc. cbn [negb].
    unfold session_id_at in Hid.
    destruct (py_or (dict_get m "session") (JObj [])); try (eexists; reflexivity).
    rewrite Hid. eexists; reflexivity.
Qed.

(** X19: whatever goes wrong, [create_payment_session] raises status
    500: its handler wraps every exception, the HTTPExceptions of
    [create_geidea_session] included. *)
Lemma create_payment_session_raises_500 (user : User.t) (amount : pyfloat)
    (currency language : string) (order shipping : option json) (w : World)
    (e : exn) :
  fst (GeideaManager.create_payment_session settings env user amount currency
         language order shipping w) = Raise e ->
  exists detail, e = HTTPException 500 detail.
Proof.
  unfold GeideaManager.create_payment_session. apply try_except_raises_500.
  intros e1 w1. eexists. eexists. reflexivity.
Qed.

(** C3: when the gateway call of a session creation fails (the network,
    a status of 400 or more, a decline, an answer without a session id), the
    call raises and the payment row inserted before it stays in the table as
    inserted: PENDING, without a gateway session id; the rows that were
    there are kept. *)
Theorem failed_gateway_call_keeps_pending_payment (user : User.t)
    (amount : pyfloat) (currency language : string)
    (order shipping : option json) (t : table) (out : list string)
    (ob : list http_request) :
  let p := new_payment env user t amount currency in
  let row := with_payloads order shipping p in
  let run := GeideaManager.create_payment_session settings env user amount
               currency language order shipping (mk_world t t out ob) in
  table_ok (t ++ [p]) = true ->
  gateway_failure
    (post env (sent_request settings env user t amount currency language
                 order shipping)) ->
  (exists detail, fst run = Raise (HTTPException 500 detail))
  /\ committed (snd run) = t ++ [row]
  /\ working (snd run) = t ++ [row]
  /\ Payment.status row = "PENDING"
  /\ Payment.geidea_session_id row = None.
Proof.
  intros p row run Hok Hfail.
  assert (Hrow : Payment.status row = "PENDING"
                 /\ Payment.geidea_session_id row = None).
  { destruct (with_payloads_keys order shipping p) as (_ & _ & _ & H1 & H2 & _).
    fold row in H1, H2. now rewrite H1, H2. }
  destruct (credentials_configured settings) eqn:Hc.
  - unfold run.
    rewrite create_payment_session_run by assumption. fold p row.
    destruct (gateway_failure_raises (Payment.id p) _ (t ++ [row]) Hfail)
      as (e & He).
    rewrite He. cbn [fst snd committed working].
    repeat split; try tauto. eexists; reflexivity.
  - unfold run.
    rewrite create_payment_session_stages by assumption. fold p row.
    rewrite create_geidea_session_unconfigured by assumption.
    cbn [fst snd committed working].
    repeat split; try tauto. eexists; reflexivity.
Qed.






End SessionFacts.

(** *** Session creation on the sample data *)

Section SessionSamples.
#[local] Existing Instance Sample.platform.

(** C5: the code at the failing input.  With the gateway out of reach,
    [create_geidea_session] raises status 502, but [create_payment_session]
    catches it and raises status 500, which is what the endpoint answers. *)
Theorem network_failure_surfaces_as_500 :
  fst (GeideaManager.create_geidea_session Sample.settings Sample.env_down
         (new_payment Sample.env_down Sample.alice [] Sample.hundred "AED")
         "en" None None
         (world_of [new_payment Sample.env_down Sample.alice []
                      Sample.hundred "AED"]))
  = Raise (HTTPException 502 "Failed to reach Geidea: connection refused")
  /\ fst (GeideaManager.create_payment_session Sample.settings Sample.env_down
            Sample.alice Sample.hundred "AED" "en" None None (world_of []))
     = Raise (HTTPException 500
                "Failed to create payment session: 502: Failed to reach Geidea: connection refused")
  /\ fst (geidea_router.post_create_session Sample.settings Sample.env_down
            Sample.body_aed Sample.alice (world_of []))
     = Raise (HTTPException 500
                "Failed to create payment session: 502: Failed to reach Geidea: connection refused").
Proof. repeat split; vm_compute; reflexivity. Qed.

(* The schema counts characters, on the value supplied: a currency of two
   characters in three bytes does not pass, one of three characters in four
   bytes does, and the uppercase that is stored can be longer. *)
Example currency_length_in_characters :
  schemas.validate_currency (Some ("a" +++ Sample.e_acute)) = None
  /\ schemas.validate_currency (Some (Sample.e_acute +++ "ab"))
     = Some (Sample.E_acute +++ "AB")
  /\ schemas.validate_currency (Some (Sample.sharp_s +++ "ab"))
     = Some "SSAB".
Proof. repeat split. Qed.


Lemma failed_gateway_call_keeps_pending_payment_witness :
  (table_ok ([] ++ [new_payment Sample.env_down Sample.alice []
                      Sample.hundred "AED"]) = true
   /\ gateway_failure
        (post Sample.env_down
           (sent_request Sample.settings Sample.env_down Sample.alice []
              Sample.hundred "AED" "en" None None)))
  /\ committed
       (snd (GeideaManager.create_payment_session Sample.settings
               Sample.env_down Sample.alice Sample.hundred "AED" "en"
               None None (mk_world [] [] [] [])))
     = [] ++ [with_payloads None None
                (new_payment Sample.env_down Sample.alice []
                   Sample.hundred "AED")].
Proof.
  assert (Hf : gateway_failure
                 (post Sample.env_down
                    (sent_request Sample.settings Sample.env_down
                       Sample.alice [] Sample.hundred "AED" "en" None None)))
    by apply network_failure.
  split; [split; [reflexivity | exact Hf]|].
  apply (proj1 (proj2 (failed_gateway_call_keeps_pending_payment
           Sample.settings Sample.env_down Sample.alice Sample.hundred
           "AED" "en" None None [] [] [] eq_refl Hf))).
Defined.



End SessionSamples.

(** * Further properties of the code *)

(** ** Webhook reconciliation *)

Lemma terminal_map_status (s : string) : terminal (map_status s) = true.
Proof.
  unfold map_status.
  destruct (eq_nocase s "success"); [reflexivity|].
  destruct (eq_nocase s "failed" || eq_nocase s "declined"); [reflexivity|].
  destruct (eq_nocase s "cancelled" || eq_nocase s "canceled"); reflexivity.
Qed.

Lemma filter_update_row (P : Payment.t -> bool) (pid : Z)
    (f : Payment.t -> Payment.t) (t : table) :
  (forall r, P (f r) = P r) ->
  filter P (update_row pid f t) = update_row pid f (filter P t).
Proof.
  intros HP. induction t as [|r t IH]; [reflexivity|].
  cbn [update_row map filter]. fold (update_row pid f t).
  destruct (Z.eqb_spec (Payment.id r) pid) as [E|E].
  - rewrite HP. destruct (P r); cbn [update_row map]; fold (update_row pid f);
      rewrite IH; [|reflexivity].
    now rewrite (proj2 (Z.eqb_eq _ _) E).
  - destruct (P r); cbn [update_row map]; fold (update_row pid f);
      rewrite IH; [|reflexivity].
    now rewrite (proj2 (Z.eqb_neq _ _) E).
Qed.

Lemma update_row_Forall2 (R : Payment.t -> Payment.t -> Prop) (pid : Z)
    (f : Payment.t -> Payment.t) (t : table) :
  (forall r, R r r) -> (forall r, R r (f r)) ->
  Forall2 R t (update_row pid f t).
Proof.
  intros Hr Hf. induction t as [|r t IH]; constructor; [|exact IH].
  destruct (Payment.id r =? pid)%Z; auto.
Qed.

Lemma Forall2_refl {A} (R : A -> A -> Prop) (l : list A) :
  (forall x, R x x) -> Forall2 R l l.
Proof. intros H. induction l; constructor; auto. Qed.

Section WebhookProperties.
Context {platform : Platform}.

Lemma handle_webhook_no_order (payload : json) (c t : table)
    (out : list string) (ob : list http_request) :
  order_object payload = None ->
  exists e,
    GeideaManager.handle_webhook payload (mk_world c t out ob)
    = (Return JNull, mk_world c c (out ++ [webhook_log e]) ob).
Proof.
  intros Ho.
  destruct payload as [| | | | | |m]; try (eexists; reflexivity).
  simpl in Ho. unfold GeideaManager.handle_webhook, try_except.
  unfold bind at 1. unfold py_get at 1, ret at 1.
  destruct (dict_get m "order") as [| [|] | z | x | s | l | od];
    try (eexists; reflexivity).
  - cbn [truthy]. destruct (z =? 0)%Z; eexists; reflexivity.
  - cbn [truthy]. destruct (float_truthy x); eexists; reflexivity.
  - cbn [truthy]. destruct (s =? ""); eexists; reflexivity.
  - destruct l; eexists; reflexivity.
  - destruct od; [eexists; reflexivity | discriminate].
Qed.

Lemma filter_reference_singleton (t : table) (ref : string) (p : Payment.t) :
  filter (fun q => Payment.merchant_reference_id q =? ref) t = [p] ->
  Payment.merchant_reference_id p = ref.
Proof.
  intros H. assert (Hin : In p (filter (fun q => Payment.merchant_reference_id q =? ref) t))
    by (rewrite H; now left).
  apply filter_In in Hin. now apply String.eqb_eq.
Qed.

(** Every run of [handle_webhook] in a fresh session ends in one of two
    ways: nothing is written and one line is printed, or the payment that
    the payload references is updated and committed. *)
Lemma handle_webhook_cases (t : table) (out : list string)
    (ob : list http_request) (payload : json) :
  (exists e,
     GeideaManager.handle_webhook payload (mk_world t t out ob)
     = (Return JNull, mk_world t t (out ++ [webhook_log e]) ob))
  \/ (exists p s f,
        references t payload p
        /\ gateway_status (webhook_field payload "status") = Some s
        /\ webhook_write s (webhook_field payload "orderId") = inr f
        /\ violated (update_row (Payment.id p) f t) = None
        /\ GeideaManager.handle_webhook payload (mk_world t t out ob)
           = (Return JNull,
              mk_world (update_row (Payment.id p) f t)
                       (update_row (Payment.id p) f t) out ob)).
Proof.
  destruct (order_object payload) as [o|] eqn:Hoo;
    [|left; now apply handle_webhook_no_order].
  destruct (truthy (dict_get o "merchantReferenceId")) eqn:Ht.
  2:{ left. enter_order Hoo. rewrite Ht. eexists; reflexivity. }
  destruct (sqlite_adapt (dict_get o "merchantReferenceId")) as [| |ref] eqn:Ha.
  1,2: left; enter_order Hoo; rewrite Ht; cbn [negb]; unfold bind at 1;
       unfold GeideaManager.select_by_merchant_reference; rewrite Ha;
       eexists; reflexivity.
  destruct (filter (fun q => Payment.merchant_reference_id q =? ref) t)
    as [|p [|q rest]] eqn:Hf.
  - left. enter_order Hoo. rewrite Ht. cbn [negb]. unfold bind at 1.
    unfold GeideaManager.select_by_merchant_reference. rewrite Ha.
    unfold bind at 1. unfold get_working at 1, ret at 1. cbn [working].
    rewrite Hf. eexists; reflexivity.
  - pose proof (filter_reference_singleton t ref p Hf) as Hp. subst ref.
    assert (Href : references t payload p).
    { unfold references, webhook_field. rewrite Hoo.
      repeat split; auto. discriminate. }
    destruct (gateway_status (dict_get o "status")) as [s|] eqn:Hs.
    + rewrite (handle_webhook_found t t out ob payload p s o) by assumption.
      destruct (webhook_write s (dict_get o "orderId")) as [e|f] eqn:Hw;
        [left; eexists; reflexivity|].
      cbv zeta.
      destruct (violated (update_row (Payment.id p) f t)) eqn:Hv;
        [left; eexists; reflexivity|].
      right. exists p, s, f. unfold webhook_field. rewrite Hoo. auto.
    + left. enter_order Hoo. rewrite Ht. cbn [negb]. unfold bind at 1.
      unfold GeideaManager.select_by_merchant_reference. rewrite Ha.
      unfold bind at 1. unfold get_working at 1, ret at 1. cbn [working].
      rewrite Hf.
      unfold bind at 1. unfold scalar_one_or_none, ret at 1.
      unfold bind at 1. unfold GeideaManager.apply_status.
      unfold bind at 1. rewrite status_in_raises by assumption.
      eexists; reflexivity.
  - left. enter_order Hoo. rewrite Ht. cbn [negb]. unfold bind at 1.
    unfold GeideaManager.select_by_merchant_reference. rewrite Ha.
    unfold bind at 1. unfold get_working at 1, ret at 1. cbn [working].
    rewrite Hf. eexists; reflexivity.
Qed.
Lemma webhook_write_shape (s : string) (oid : json)
    (f : Payment.t -> Payment.t) :
  webhook_write s oid = inr f ->
  forall r,
    fixed_columns (f r) = fixed_columns r
    /\ Payment.status (f r) = map_status s
    /\ f (f r) = f r.
Proof.
  unfold webhook_write. intros H r.
  destruct (map_status s =? "SUCCESS") eqn:E.
  - apply String.eqb_eq in E. rewrite E.
    destruct (sqlite_adapt oid); try discriminate;
      injection H as <-; destruct r; repeat split.
  - injection H as <-. destruct r; repeat split.
Qed.

Lemma after_webhook_cases (t : table) (payload : json) :
  after_webhook t payload = t
  \/ (exists p s f,
        references t payload p
        /\ gateway_status (webhook_field payload "status") = Some s
        /\ webhook_write s (webhook_field payload "orderId") = inr f
        /\ violated (update_row (Payment.id p) f t) = None
        /\ after_webhook t payload = update_row (Payment.id p) f t).
Proof.
  unfold after_webhook, world_of.
  destruct (handle_webhook_cases t [] [] payload)
    as [(e & ->) | (p & s & f & H1 & H2 & H3 & H4 & ->)].
  - now left.
  - right. exists p, s, f. auto.
Qed.

(** X1: for every payload and every table, [handle_webhook] adds no row,
    removes none and leaves every column other than [status] and
    [geidea_order_id] of every row as it was. *)
Theorem webhook_touches_status_and_order_id_only (t : table) (payload : json) :
  map fixed_columns (after_webhook t payload) = map fixed_columns t.
Proof.
  destruct (after_webhook_cases t payload)
    as [-> | (p & s & f & _ & _ & Hw & _ & ->)]; [reflexivity|].
  apply update_row_map. intros r. apply (webhook_write_shape _ _ _ Hw r).
Qed.

(** X3: the status that [handle_webhook] leaves on a row is the one it
    had or one of SUCCESS, FAILED, CANCELLED, UNKNOWN: a webhook never puts a
    payment back to PENDING or to any other value. *)
Theorem webhook_writes_terminal_status_only (t : table) (payload : json) :
  Forall2 (fun q q' => Payment.status q' = Payment.status q
                       \/ terminal (Payment.status q') = true)
          t (after_webhook t payload).
Proof.
  destruct (after_webhook_cases t payload)
    as [-> | (p & s & f & _ & _ & Hw & _ & ->)].
  - apply Forall2_refl. now left.
  - apply update_row_Forall2; [now left|]. intros r. right.
    destruct (webhook_write_shape _ _ _ Hw r) as (_ & -> & _).
    apply terminal_map_status.
Qed.

(** X4: delivering the same payload twice leaves the table as delivering
    it once, for every payload and every table. *)
Theorem webhook_replay_is_idempotent (t : table) (payload : json) :
  after_webhook (after_webhook t payload) payload = after_webhook t payload.
Proof.
  destruct (after_webhook_cases t payload)
    as [H | (p & s & f & Href & Hs & Hw & Hv & H)]; rewrite H.
  - exact H.
  - set (t' := update_row (Payment.id p) f t).
    destruct Href as (Ho & Ht & Ha & Hf).
    pose proof (webhook_write_shape _ _ _ Hw) as Hshape.
    assert (Hmref : forall r, Payment.merchant_reference_id (f r)
                              = Payment.merchant_reference_id r).
    { intros r. destruct (Hshape r) as (Hc & _). unfold fixed_columns in Hc.
      now injection Hc. }
    assert (Hid : forall r, Payment.id (f r) = Payment.id r).
    { intros r. destruct (Hshape r) as (Hc & _). unfold fixed_columns in Hc.
      now injection Hc. }
    assert (Href' : references t' payload (f p)).
    { unfold references. rewrite Hmref. repeat split; auto.
      unfold t'. rewrite filter_update_row
        by (intros r; now rewrite Hmref).
      rewrite Hf. cbn. now rewrite Z.eqb_refl. }
    rewrite (after_webhook_found t' payload (f p) s Href' Hs), Hw, Hid.
    assert (Hsame : update_row (Payment.id p) f t' = t').
    { unfold t'. rewrite update_row_compose by exact Hid.
      unfold update_row. apply map_ext. intros r.
      destruct (Payment.id r =? Payment.id p)%Z; [apply Hshape | reflexivity]. }
    rewrite Hsame. now destruct (table_ok t').
Qed.

(** X2: a payment that the payload does not reference is in the table
    after the webhook exactly as it was before. *)
Theorem webhook_leaves_other_payments (t : table) (payload : json)
    (q : Payment.t) :
  pk_ok t = true -> In q t -> ~ references t payload q ->
  In q (after_webhook t payload).
Proof.
  intros Hpk Hq Hnot.
  destruct (after_webhook_cases t payload)
    as [-> | (p & s & f & Href & _ & _ & _ & ->)]; [exact Hq|].
  unfold update_row. apply in_map_iff. exists q. split; [|exact Hq].
  destruct (Z.eqb_spec (Payment.id q) (Payment.id p)) as [E|E]; [|reflexivity].
  exfalso. apply Hnot.
  pose proof (filter_singleton_in _ _ _ (proj2 (proj2 (proj2 Href)))) as Hp.
  now rewrite (distinctZ_unique t p q Hpk Hp Hq E).
Qed.

End WebhookProperties.

(** ** Session creation *)

Lemma existsb_app_false {A} (f : A -> bool) (l1 l2 : list A) :
  existsb f l1 = false -> existsb f l2 = false -> existsb f (l1 ++ l2) = false.
Proof. intros H1 H2. now rewrite existsb_app, H1, H2. Qed.

Lemma distinct_snoc (l : list string) (x : string) :
  distinct l = true -> existsb (String.eqb x) l = false ->
  distinct (l ++ [x]) = true.
Proof.
  induction l as [|y l IH]; [reflexivity|]. simpl. intros Hd Hx.
  apply andb_true_iff in Hd as [Hy Hd]. apply orb_false_iff in Hx as [Hxy Hx].
  rewrite IH by assumption. rewrite andb_true_r.
  apply negb_true_iff. apply existsb_app_false.
  - now apply negb_true_iff.
  - simpl. rewrite orb_false_r. now rewrite String.eqb_sym.
Qed.

Lemma distinct_snoc_inv (l : list string) (x : string) :
  existsb (String.eqb x) l = true -> distinct (l ++ [x]) = false.
Proof.
  induction l as [|y l IH]; [discriminate|]. simpl. intros Hx.
  destruct (String.eqb_spec x y) as [<-|Hxy].
  - replace (existsb (String.eqb x) (l ++ [x])) with true; [reflexivity|].
    symmetry. rewrite existsb_app. simpl. rewrite String.eqb_refl.
    now rewrite orb_true_r.
  - simpl in Hx. rewrite (IH Hx). apply andb_false_r.
Qed.

Lemma distinctZ_snoc (l : list Z) (x : Z) :
  distinctZ l = true -> existsb (Z.eqb x) l = false ->
  distinctZ (l ++ [x]) = true.
Proof.
  induction l as [|y l IH]; [reflexivity|]. simpl. intros Hd Hx.
  apply andb_true_iff in Hd as [Hy Hd]. apply orb_false_iff in Hx as [Hxy Hx].
  rewrite IH by assumption. rewrite andb_true_r.
  apply negb_true_iff. apply existsb_app_false.
  - now apply negb_true_iff.
  - simpl. rewrite orb_false_r. now rewrite Z.eqb_sym.
Qed.

Lemma somes_app {A} (l1 l2 : list (option A)) :
  somes (l1 ++ l2) = somes l1 ++ somes l2.
Proof.
  induction l1 as [|[x|] l1 IH]; simpl; [reflexivity | now rewrite IH | exact IH].
Qed.

Lemma next_id_unused (t : table) :
  existsb (Z.eqb (GeideaManager.next_id t)) (map Payment.id t) = false.
Proof.
  destruct (existsb _ _) eqn:E; [|reflexivity].
  apply existsb_exists in E as (x & Hx & Ex).
  apply in_map_iff in Hx as (q & <- & Hq).
  apply next_id_above in Hq. apply Z.eqb_eq in Ex. lia.
Qed.

Lemma table_ok_parts (t : table) :
  table_ok t = true
  <-> pk_ok t = true /\ merchant_reference_ok t = true
      /\ geidea_order_ok t = true.
Proof.
  unfold table_ok, violated.
  destruct (pk_ok t), (merchant_reference_ok t), (geidea_order_ok t);
    simpl; intuition congruence.
Qed.

Lemma reference_unused (t : table) (ref : string) :
  (forall q, In q t -> Payment.merchant_reference_id q <> ref) ->
  existsb (String.eqb ref) (map Payment.merchant_reference_id t) = false.
Proof.
  intros H. destruct (existsb _ _) eqn:E; [|reflexivity].
  apply existsb_exists in E as (x & Hx & Ex).
  apply in_map_iff in Hx as (q & <- & Hq).
  apply String.eqb_eq in Ex. exfalso. now apply (H q Hq).
Qed.



Lemma append_assoc (a b c : string) : (a +++ b) +++ c = a +++ b +++ c.
Proof. induction a as [|x a IH]; simpl; [reflexivity | now rewrite IH]. Qed.

Lemma post_outcome_failure `{Platform} (pid : Z) (r : post_result) (t : table)
    (e : exn) :
  fst (post_outcome pid r t) = Raise e -> snd (post_outcome pid r t) = t.
Proof.
  unfold post_outcome, answer_outcome, attach_session.
  repeat match goal with
         | |- context [match ?x with _ => _ end] => destruct x
         end; simpl; congruence.
Qed.

Section SessionProperties.
Context {platform : Platform}.
Variable settings : Settings.
Variable env : Env.

Lemma table_ok_insert (user : User.t) (t : table) (amount : pyfloat)
    (currency : string) :
  table_ok t = true ->
  (forall q, In q t -> Payment.merchant_reference_id q <> uuid4 env) ->
  table_ok (t ++ [new_payment env user t amount currency]) = true.
Proof.
  intros Hok Hfresh. apply table_ok_parts in Hok as (H1 & H2 & H3).
  apply table_ok_parts. unfold pk_ok, merchant_reference_ok, geidea_order_ok in *.
  rewrite !map_app, somes_app. cbn [map new_payment Payment.id
    Payment.merchant_reference_id Payment.geidea_order_id somes].
  rewrite app_nil_r. repeat split; [| |exact H3].
  - apply distinctZ_snoc; [exact H1 | apply next_id_unused].
  - apply distinct_snoc; [exact H2 | now apply reference_unused].
Qed.

(** X7: on a table that satisfies its constraints, with a merchant
    reference no payment carries yet, [create_payment_record] commits one new
    row at the end: PENDING, without gateway ids, under a key above every
    key in use; the table still satisfies its constraints. *)
Theorem create_payment_record_inserts (user : User.t) (amount : pyfloat)
    (currency : string) (t : table) (out : list string)
    (ob : list http_request) :
  let p := new_payment env user t amount currency in
  table_ok t = true ->
  (forall q, In q t -> Payment.merchant_reference_id q <> uuid4 env) ->
  GeideaManager.create_payment_record env user amount currency
    (mk_world t t out ob)
  = (Return p, mk_world (t ++ [p]) (t ++ [p]) out ob)
  /\ table_ok (t ++ [p]) = true
  /\ (forall q, In q t -> (Payment.id q < Payment.id p)%Z).
Proof.
  intros p Hok Hfresh.
  pose proof (table_ok_insert user t amount currency Hok Hfresh) as Hp.
  fold p in Hp. split; [|split; [exact Hp|]].
  - rewrite create_payment_record_run. fold p.
    now rewrite (proj2 (violated_none_ok _) Hp).
  - intros q Hq. now apply next_id_above.
Qed.

(** X8: when the generated merchant reference is already carried by a
    payment, the insert fails: [create_payment_record] and
    [create_payment_session] raise status 500, the table is as before and
    nothing is sent to the gateway. *)
Theorem create_payment_record_reference_collision (user : User.t)
    (amount : pyfloat) (currency language : string)
    (order shipping : option json) (t : table) (out : list string)
    (ob : list http_request) (q : Payment.t) :
  In q t -> Payment.merchant_reference_id q = uuid4 env ->
  (exists detail,
     GeideaManager.create_payment_record env user amount currency
       (mk_world t t out ob)
     = (Raise (HTTPException 500
                 ("Failed to create payment record: " +++ detail)),
        mk_world t t out ob))
  /\ (exists detail,
        GeideaManager.create_payment_session settings env user amount currency
          language order shipping (mk_world t t out ob)
        = (Raise (HTTPException 500
                    ("Failed to create payment session: " +++ detail)),
           mk_world t t out ob)).
Proof.
  intros Hq Href.
  assert (Hv : exists k, violated (t ++ [new_payment env user t amount currency])
                         = Some k).
  { unfold violated. destruct (pk_ok _); [|eexists; reflexivity].
    cbn [negb]. unfold merchant_reference_ok. rewrite map_app.
    cbn [map new_payment Payment.merchant_reference_id].
    rewrite distinct_snoc_inv; [eexists; reflexivity|].
    apply existsb_exists. exists (Payment.merchant_reference_id q). split.
    - now apply in_map.
    - apply String.eqb_eq. now symmetry. }
  destruct Hv as (k & Hv).
  assert (Hrec : GeideaManager.create_payment_record env user amount currency
                   (mk_world t t out ob)
                 = (Raise (HTTPException 500
                             ("Failed to create payment record: "
                                +++ exn_str (LibError (IntegrityError k)))),
                    mk_world t t out ob)).
  { rewrite create_payment_record_run. now rewrite Hv. }
  split; [eexists; exact Hrec|].
  unfold GeideaManager.create_payment_session, try_except.
  unfold bind at 1. rewrite Hrec. eexists. reflexivity.
Qed.
Lemma owner_lookup (w : World) (p : Payment.t) (u : User.t) :
  pk_ok (working w) = true -> In p (working w) ->
  Payment.user_id p = User.id u ->
  filter (fun q => (Payment.id q =? Payment.id p)%Z
                   && (Payment.user_id q =? User.id u)%Z) (working w) = [p].
Proof.
  intros Hpk Hin Hown.
  induction (working w) as [|q t IH]; [destruct Hin|].
  unfold pk_ok in *. cbn [map distinctZ] in Hpk.
  apply andb_true_iff in Hpk as [Hq Hpk]. apply negb_true_iff in Hq.
  cbn [filter].
  destruct Hin as [->|Hin].
  - rewrite Z.eqb_refl, Hown, Z.eqb_refl. cbn [andb]. f_equal.
    apply filter_nil. intros x Hx. apply andb_false_iff. left.
    apply Z.eqb_neq. intros E.
    assert (existsb (Z.eqb (Payment.id p)) (map Payment.id t) = true); [|congruence].
    apply existsb_exists. exists (Payment.id x). split; [now apply in_map|].
    apply Z.eqb_eq. congruence.
  - destruct (Z.eqb_spec (Payment.id q) (Payment.id p)) as [E|E].
    + exfalso.
      assert (existsb (Z.eqb (Payment.id q)) (map Payment.id t) = true); [|congruence].
      apply existsb_exists. exists (Payment.id p). split; [now apply in_map|].
      now apply Z.eqb_eq.
    + cbn [andb]. now apply IH.
Qed.

(* Lookup of a payment by its owner, through the manager and through the
   status endpoint. *)
Lemma owner_lookup_run (w : World) (p : Payment.t) (u : User.t) :
  pk_ok (working w) = true -> In p (working w) ->
  Payment.user_id p = User.id u ->
  GeideaManager.get_payment_by_id u (Payment.id p) w
  = (if fits_int64 (Payment.id p) then Return (Some p)
     else Raise (unbound_id_fault (Payment.id p)), w)
  /\ geidea_router.get_payment_status (Payment.id p) u w
     = (if fits_int64 (Payment.id p) then Return (status_view p)
        else Raise (unbound_id_fault (Payment.id p)), w).
Proof.
  intros Hpk Hin Hown.
  assert (E : GeideaManager.get_payment_by_id u (Payment.id p) w
              = (if fits_int64 (Payment.id p) then Return (Some p)
                 else Raise (unbound_id_fault (Payment.id p)), w)).
  { unfold GeideaManager.get_payment_by_id, try_except, bind, get_working.
    cbn [working]. destruct (fits_int64 (Payment.id p)); [|reflexivity].
    now rewrite (owner_lookup w p u Hpk Hin Hown). }
  split; [exact E|].
  unfold geidea_router.get_payment_status, try_except, bind. rewrite E.
  now destruct (fits_int64 (Payment.id p)).
Qed.

(** X12: the owner of a payment gets it from [get_payment_by_id], and
    from the status endpoint its id, status, amount, currency, merchant
    reference and creation time, the id being one of 64 bits as the ids of
    the table are; for another id the driver's exception is answered with
    status 500. *)
Theorem owner_status_query (w : World) (p : Payment.t) (u : User.t) :
  pk_ok (working w) = true -> In p (working w) ->
  Payment.user_id p = User.id u ->
  GeideaManager.get_payment_by_id u (Payment.id p) w
  = (if fits_int64 (Payment.id p) then Return (Some p)
     else Raise (unbound_id_fault (Payment.id p)), w)
  /\ geidea_router.get_payment_status (Payment.id p) u w
     = (if fits_int64 (Payment.id p) then Return (status_view p)
        else Raise (unbound_id_fault (Payment.id p)), w).
Proof. exact (owner_lookup_run w p u). Qed.




(** X13: [create_geidea_session] sends exactly one request when the
    credentials are configured, whatever the gateway then answers, and none
    when they are not: there is no retry. *)
Theorem gateway_called_at_most_once (p : Payment.t) (language : string)
    (order shipping : option json) (t : table) (out : list string)
    (ob : list http_request) :
  outbox (snd (GeideaManager.create_geidea_session settings env p language
                 order shipping (mk_world t t out ob)))
  = if credentials_configured settings
    then ob ++ [GeideaManager.session_request settings env p language order
                  shipping]
    else ob.
Proof.
  destruct (credentials_configured settings) eqn:Hc.
  - now rewrite create_geidea_session_run.
  - now rewrite create_geidea_session_unconfigured.
Qed.

(** X14: [create_geidea_session] changes no column other than
    [geidea_session_id], leaves no change pending, and when it raises the
    table is as before. *)
Theorem create_geidea_session_writes_session_id_only (p : Payment.t)
    (language : string) (order shipping : option json) (t : table)
    (out : list string) (ob : list http_request) :
  let run := GeideaManager.create_geidea_session settings env p language
               order shipping (mk_world t t out ob) in
  map session_free_columns (committed (snd run)) = map session_free_columns t
  /\ working (snd run) = committed (snd run)
  /\ (forall e, fst run = Raise e -> committed (snd run) = t).
Proof.
  intros run. unfold run.
  destruct (credentials_configured settings) eqn:Hc.
  - rewrite create_geidea_session_run by assumption. cbn [fst snd committed working].
    repeat split.
    + destruct (post_outcome_table (Payment.id p)
                  (post env (GeideaManager.session_request settings env p
                               language order shipping)) t) as [-> | (o & ->)];
        [reflexivity|].
      apply update_row_map. now intros [].
    + apply post_outcome_failure.
  - rewrite create_geidea_session_unconfigured by assumption.
    cbn [fst snd committed working]. auto.
Qed.

(** X15: an answer of the gateway with a status of 400 or more is raised
    by [create_geidea_session] with that same status and the body of the
    answer; the table is as before. *)
Theorem gateway_error_status_passes_through (p : Payment.t)
    (language : string) (order shipping : option json) (t : table)
    (out : list string) (ob : list http_request) (r : http_response) :
  let req := GeideaManager.session_request settings env p language order
               shipping in
  credentials_configured settings = true ->
  post env req = Response r ->
  (400 <= resp_status_code r)%Z ->
  GeideaManager.create_geidea_session settings env p language order shipping
    (mk_world t t out ob)
  = (Raise (HTTPException (resp_status_code r)
              ("Geidea error: " +++ resp_text r)),
     mk_world t t out (ob ++ [req])).
Proof.
  intros req Hc Hpost Hst.
  rewrite create_geidea_session_run by assumption. fold req. rewrite Hpost.
  unfold post_outcome. now rewrite (proj2 (Z.leb_le _ _) Hst).
Qed.

End SessionProperties.

(** ** The signature and the request schema *)

(** X16: the fields are signed end to end without delimiters, so the
    signature does not fix where one field stops and the next begins: text
    moved from the end of the currency to the start of the merchant
    reference, or from the end of the reference to the start of the
    timestamp, gives the same signature. *)
Theorem signature_ignores_field_boundaries (pk : string) (amount : pyfloat)
    (currency x ref secret ts : string) :
  GeideaManager._generate_signature pk amount (currency +++ x) ref secret ts
  = GeideaManager._generate_signature pk amount currency (x +++ ref) secret ts
  /\ GeideaManager._generate_signature pk amount currency (ref +++ x) secret ts
     = GeideaManager._generate_signature pk amount currency ref secret (x +++ ts).
Proof.
  unfold GeideaManager._generate_signature, GeideaManager.signed_data.
  split; do 3 f_equal; f_equal; now rewrite !append_assoc.
Qed.

(** X17: a whole amount [n] is written as the decimal numeral of [n]
    followed by ".00". *)
Theorem whole_amount_has_zero_cents (n : N) :
  GeideaManager._format_amount_two_decimals (Finite false n 0)
  = str_of_N n +++ ".00".
Proof.
  unfold GeideaManager._format_amount_two_decimals, format_2f, hundredths.
  cbn [Z.leb Z.compare Z.to_N sign_prefix].
  replace (n * 100 * 2 ^ 0)%N with (n * 100)%N by (simpl; lia).
  rewrite N.div_mul by lia. rewrite N.Div0.mod_mul. reflexivity.
Qed.

(** ** The earlier router, the callback endpoint and the users *)

Lemma distinct_filter_singleton {A} (key : A -> string) (l : list A) (x : A) :
  distinct (map key l) = true -> In x l ->
  filter (fun y => key y =? key x) l = [x].
Proof.
  induction l as [|y l IH]; [intros _ []|]. cbn [map distinct filter].
  intros Hd Hin. apply andb_true_iff in Hd as [Hy Hd].
  apply negb_true_iff in Hy.
  assert (Hno : forall z, In z l -> key z <> key y).
  { intros z Hz E.
    assert (existsb (String.eqb (key y)) (map key l) = true); [|congruence].
    apply existsb_exists. exists (key z). split; [now apply in_map|].
    apply String.eqb_eq. congruence. }
  destruct Hin as [->|Hin].
  - rewrite String.eqb_refl. f_equal. apply filter_nil. intros z Hz.
    apply String.eqb_neq. now apply Hno.
  - destruct (String.eqb_spec (key y) (key x)) as [E|E].
    + exfalso. apply (Hno x Hin). congruence.
    + now apply IH.
Qed.

Lemma user_next_id_unused (t : user_crud.users) :
  existsb (Z.eqb (user_crud.next_id t)) (map User.id t) = false.
Proof.
  destruct (existsb _ _) eqn:E; [|reflexivity].
  apply existsb_exists in E as (x & Hx & Ex). apply Z.eqb_eq in Ex.
  exfalso. revert Hx. unfold user_crud.next_id in Ex. subst x.
  assert (H : forall z, In z (map User.id t) ->
                (z <= fold_right Z.max 0 (map User.id t))%Z).
  { induction (map User.id t) as [|a l IH]; [intros z []|].
    intros z [<-|Hz]; cbn [fold_right]; [lia|]. specialize (IH z Hz). lia. }
  intros Hin. specialize (H _ Hin). lia.
Qed.

Lemma email_unused (t : user_crud.users) (email : string) :
  (forall u, In u t -> User.email u <> email) ->
  existsb (String.eqb email) (map User.email t) = false
  /\ filter (fun u => User.email u =? email) t = [].
Proof.
  intros H. split.
  - destruct (existsb _ _) eqn:E; [|reflexivity].
    apply existsb_exists in E as (x & Hx & Ex).
    apply in_map_iff in Hx as (u & <- & Hu).
    apply String.eqb_eq in Ex. exfalso. now apply (H u Hu).
  - apply filter_nil. intros u Hu. apply String.eqb_neq. now apply H.
Qed.

Section Users.
Variable get_password_hash : string -> string.
Variable verify_password : string -> string -> bool.
Variable now : string.

(** X20: [create_user] with the email of a registered user raises
    status 400 "Email already registered." and leaves the table as it was. *)
Theorem create_user_rejects_registered_email (t : user_crud.users)
    (u : User.t) (password : string) :
  user_crud.users_ok t = true -> In u t ->
  user_crud.create_user get_password_hash now t (User.email u) password
  = (Raise (HTTPException 400 "Email already registered."), t).
Proof.
  intros Hok Hin. apply andb_true_iff in Hok as [_ He].
  unfold user_crud.create_user, user_crud.get_user_by_email.
  now rewrite (distinct_filter_singleton User.email t u He Hin).
Qed.

(** X21: [create_user] with an email no user has adds one user: under a
    new key, active, holding the hash of the password and not the password;
    emails stay unique and [get_user_by_email] finds the new user. *)
Theorem create_user_registers_new_email (t : user_crud.users)
    (email password : string) :
  let user := User.mk (user_crud.next_id t) email
                (get_password_hash password) true now in
  user_crud.users_ok t = true ->
  (forall u, In u t -> User.email u <> email) ->
  user_crud.create_user get_password_hash now t email password
  = (Return user, t ++ [user])
  /\ user_crud.users_ok (t ++ [user]) = true
  /\ user_crud.get_user_by_email (t ++ [user]) email = Return (Some user).
Proof.
  intros user Hok Hnew. destruct (email_unused t email Hnew) as [Hex Hfil].
  assert (Hok' : user_crud.users_ok (t ++ [user]) = true).
  { apply andb_true_iff in Hok as [Hi He]. unfold user_crud.users_ok.
    rewrite !map_app. cbn [map user User.id User.email].
    apply andb_true_iff. split.
    - apply distinctZ_snoc; [exact Hi | apply user_next_id_unused].
    - now apply distinct_snoc. }
  repeat split; [|exact Hok'|].
  - unfold user_crud.create_user, user_crud.get_user_by_email.
    rewrite Hfil. fold user. now rewrite Hok'.
  - unfold user_crud.get_user_by_email. rewrite filter_app, Hfil.
    cbn [filter user User.email app]. now rewrite String.eqb_refl.
Qed.

(** X22: [authenticate_user] returns a user only if that user is in the
    table under the given email and [verify_password] accepted the password
    against the stored hash. *)
Theorem authenticate_user_checks_password (t : user_crud.users)
    (email password : string) (u : User.t) :
  user_crud.authenticate_user verify_password t email password = Return u ->
  In u t /\ User.email u = email
  /\ verify_password password (User.hashed_password u) = true.
Proof.
  unfold user_crud.authenticate_user, user_crud.get_user_by_email.
  destruct (filter _ t) as [|x [|y l]] eqn:Hf; try discriminate.
  destruct (verify_password password (User.hashed_password x)) eqn:Hv;
    [|discriminate].
  intros H. injection H as <-.
  assert (Hin : In x (filter (fun u => User.email u =? email) t))
    by (rewrite Hf; now left).
  apply filter_In in Hin as [Hin He]. apply String.eqb_eq in He. auto.
Qed.
End Users.

Section OtherEndpoints.
Context {platform : Platform}.
Variable env : Env.

(** X23: [create_session] of the earlier router keeps no record: the
    payments table and the output are as before and exactly one request is
    sent; the signature in it is the one [GeideaManager] computes for the same
    fields, the empty text standing for a missing merchant reference. *)
Theorem payment_router_session_is_stateless
    (payload : payment_router.CreateSessionRequest) (w : World) :
  let run := payment_router.create_session env payload w in
  let req := payment_router.session_request env payload in
  committed (snd run) = committed w
  /\ working (snd run) = working w
  /\ stdout (snd run) = stdout w
  /\ outbox (snd run) = outbox w ++ [req]
  /\ json_field (req_json req) "signature"
     = JStr (GeideaManager._generate_signature
               payment_router.GEIDEA_PUBLIC_KEY
               (payment_router.amount payload)
               (payment_router.currency payload)
               (payment_router.reference_or_empty
                  (payment_router.merchantReferenceId payload))
               payment_router.GEIDEA_API_PASSWORD (utcnow env)).
Proof.
  intros run req.
  assert (Hw : snd run = mk_world (committed w) (working w) (stdout w)
                           (outbox w ++ [req])).
  { unfold run, payment_router.create_session.
    change ((payment_router.GEIDEA_PUBLIC_KEY =? "")
            || (payment_router.GEIDEA_API_PASSWORD =? "")) with false.
    cbv iota. fold req.
    unfold bind at 1. unfold GeideaManager.client_post.
    destruct (post env req) as [exc|resp]; [reflexivity|].
    destruct (400 <=? resp_status_code resp)%Z; [reflexivity|].
    unfold bind at 1. unfold GeideaManager.response_json.
    destruct (resp_json resp) as [v|]; [|reflexivity]. unfold ret at 1.
    destruct v as [| | | | | |m]; try reflexivity.
    do 2 (unfold bind at 1; unfold py_get at 1, ret at 1).
    destruct (negb _ || negb _); [reflexivity|].
    unfold bind at 1. unfold py_get at 1, ret at 1. unfold bind at 1.
    destruct (py_or (dict_get m "session") (JObj [])); try reflexivity.
    unfold py_get at 1, ret at 1.
    destruct (negb (truthy (dict_get items "id"))); [reflexivity|].
    destruct (dict_get items "id"); reflexivity. }
  rewrite Hw. cbn [committed working stdout outbox]. repeat split.
Qed.

(** X24: [create_session] of the earlier router lets the gateway
    statuses through: 502 when the gateway cannot be reached, the gateway's
    own status and body for a status of 400 or more. *)
Theorem payment_router_keeps_gateway_status
    (payload : payment_router.CreateSessionRequest) (w : World) :
  let run := payment_router.create_session env payload w in
  let req := payment_router.session_request env payload in
  (forall exc, post env req = HTTPError exc ->
     fst run = Raise (HTTPException 502 ("Failed to reach Geidea: " +++ exc)))
  /\ (forall r, post env req = Response r -> (400 <= resp_status_code r)%Z ->
        fst run = Raise (HTTPException (resp_status_code r)
                           ("Geidea error: " +++ resp_text r))).
Proof.
  intros run req. unfold run, payment_router.create_session.
  change ((payment_router.GEIDEA_PUBLIC_KEY =? "")
          || (payment_router.GEIDEA_API_PASSWORD =? "")) with false.
  cbv iota. fold req. unfold GeideaManager.client_post.
  split.
  - intros exc Hp. unfold bind at 1. now rewrite Hp.
  - intros r Hp Hst. unfold bind at 1. rewrite Hp.
    now rewrite (proj2 (Z.leb_le _ _) Hst).
Qed.


End OtherEndpoints.

(** ** The further properties on the sample data *)

Section PropertySamples.
#[local] Existing Instance Sample.platform.

Lemma webhook_leaves_other_payments_witness :
  (pk_ok [Sample.paid; Sample.pending] = true
   /\ In Sample.pending [Sample.paid; Sample.pending]
   /\ ~ references [Sample.paid; Sample.pending]
          (Sample.webhook "ref-1" "ord_9" "Failed") Sample.pending)
  /\ In Sample.pending
       (after_webhook [Sample.paid; Sample.pending]
          (Sample.webhook "ref-1" "ord_9" "Failed")).
Proof.
  assert (Hn : ~ references [Sample.paid; Sample.pending]
                   (Sample.webhook "ref-1" "ord_9" "Failed") Sample.pending).
  { intros (_ & _ & H & _). discriminate H. }
  assert (Hin : In Sample.pending [Sample.paid; Sample.pending])
    by (right; now left).
  split; [repeat split; assumption|].
  apply (webhook_leaves_other_payments [Sample.paid; Sample.pending]
           (Sample.webhook "ref-1" "ord_9" "Failed") Sample.pending
           eq_refl Hin Hn).
Defined.

Lemma after_webhook_status_not_text_witness :
  (references [Sample.paid; Sample.pending]
     (JObj [("order", JObj [("merchantReferenceId", JStr "ref-2");
                            ("status", JInt 5)])]) Sample.pending
   /\ gateway_status
        (webhook_field
           (JObj [("order", JObj [("merchantReferenceId", JStr "ref-2");
                                  ("status", JInt 5)])]) "status") = None)
  /\ after_webhook [Sample.paid; Sample.pending]
       (JObj [("order", JObj [("merchantReferenceId", JStr "ref-2");
                              ("status", JInt 5)])])
     = [Sample.paid; Sample.pending].
Proof.
  assert (Hr : references [Sample.paid; Sample.pending]
                 (JObj [("order", JObj [("merchantReferenceId", JStr "ref-2");
                                        ("status", JInt 5)])]) Sample.pending).
  { repeat split; try reflexivity. discriminate. }
  split; [split; [exact Hr | reflexivity]|].
  apply (after_webhook_status_not_text _ _ _ Hr eq_refl).
Defined.

Lemma sample_fresh_reference :
  forall q, In q [Sample.pending] ->
    Payment.merchant_reference_id q <> uuid4 Sample.env_ok.
Proof. intros q [<- | []]. discriminate. Defined.

Lemma create_payment_record_inserts_witness :
  (table_ok [Sample.pending] = true
   /\ forall q, In q [Sample.pending] ->
        Payment.merchant_reference_id q <> uuid4 Sample.env_ok)
  /\ GeideaManager.create_payment_record Sample.env_ok Sample.alice
       Sample.hundred "AED" (mk_world [Sample.pending] [Sample.pending] [] [])
     = (Return (new_payment Sample.env_ok Sample.alice [Sample.pending]
                  Sample.hundred "AED"),
        mk_world
          ([Sample.pending]
             ++ [new_payment Sample.env_ok Sample.alice [Sample.pending]
                   Sample.hundred "AED"])
          ([Sample.pending]
             ++ [new_payment Sample.env_ok Sample.alice [Sample.pending]
                   Sample.hundred "AED"]) [] []).
Proof.
  split; [split; [reflexivity | exact sample_fresh_reference]|].
  apply (proj1 (create_payment_record_inserts Sample.env_ok Sample.alice
                  Sample.hundred "AED" [Sample.pending] [] [] eq_refl
                  sample_fresh_reference)).
Defined.

Lemma create_payment_record_reference_collision_witness :
  (In Sample.paid [Sample.paid]
   /\ Payment.merchant_reference_id Sample.paid = uuid4 Sample.env_ok)
  /\ exists detail,
       GeideaManager.create_payment_session Sample.settings Sample.env_ok
         Sample.alice Sample.hundred "AED" "en" None None
         (mk_world [Sample.paid] [Sample.paid] [] [])
       = (Raise (HTTPException 500
                   ("Failed to create payment session: " +++ detail)),
          mk_world [Sample.paid] [Sample.paid] [] []).
Proof.
  split; [split; [now left | reflexivity]|].
  apply (proj2 (create_payment_record_reference_collision Sample.settings
                  Sample.env_ok Sample.alice Sample.hundred "AED" "en" None
                  None [Sample.paid] [] [] Sample.paid
                  (or_introl eq_refl) eq_refl)).
Defined.





Lemma owner_status_query_witness :
  (pk_ok (working (world_of [Sample.paid; Sample.pending])) = true
   /\ In Sample.paid (working (world_of [Sample.paid; Sample.pending]))
   /\ Payment.user_id Sample.paid = User.id Sample.alice)
  /\ geidea_router.get_payment_status 1 Sample.alice
       (world_of [Sample.paid; Sample.pending])
     = (Return (status_view Sample.paid),
        world_of [Sample.paid; Sample.pending]).
Proof.
  split; [repeat split; now left|].
  apply (proj2 (owner_status_query (world_of [Sample.paid; Sample.pending])
                  Sample.paid Sample.alice eq_refl (or_introl eq_refl)
                  eq_refl)).
Defined.

Lemma gateway_error_status_passes_through_witness :
  (credentials_configured Sample.settings = true
   /\ post Fixtures.env_busy
        (GeideaManager.session_request Sample.settings Fixtures.env_busy
           Sample.pending "en" None None)
      = Response (mk_response 503 "busy" None)
   /\ (400 <= resp_status_code (mk_response 503 "busy" None))%Z)
  /\ fst (GeideaManager.create_geidea_session Sample.settings Fixtures.env_busy
            Sample.pending "en" None None
            (mk_world [Sample.pending] [Sample.pending] [] []))
     = Raise (HTTPException 503 "Geidea error: busy").
Proof.
  assert (Hs : (400 <= resp_status_code (mk_response 503 "busy" None))%Z)
    by discriminate.
  split; [repeat split; exact Hs|].
  apply (f_equal fst
           (gateway_error_status_passes_through Sample.settings Fixtures.env_busy
              Sample.pending "en" None None [Sample.pending] [] []
              (mk_response 503 "busy" None) eq_refl eq_refl Hs)).
Defined.

Lemma create_payment_session_raises_500_witness :
  fst (GeideaManager.create_payment_session Sample.settings Sample.env_down
         Sample.alice Sample.hundred "AED" "en" None None (world_of []))
  = Raise (HTTPException 500
             "Failed to create payment session: 502: Failed to reach Geidea: connection refused")
  /\ exists detail,
       HTTPException 500
         "Failed to create payment session: 502: Failed to reach Geidea: connection refused"
       = HTTPException 500 detail.
Proof.
  split; [reflexivity|].
  apply (create_payment_session_raises_500 Sample.settings Sample.env_down
           Sample.alice Sample.hundred "AED" "en" None None (world_of [])
           _ eq_refl).
Defined.

Lemma create_user_rejects_registered_email_witness :
  (user_crud.users_ok [Fixtures.carol] = true /\ In Fixtures.carol [Fixtures.carol])
  /\ user_crud.create_user Fixtures.toy_hash "2026-01-02" [Fixtures.carol] (User.email Fixtures.carol)
       "other"
     = (Raise (HTTPException 400 "Email already registered."), [Fixtures.carol]).
Proof.
  split; [split; [reflexivity | now left]|].
  apply (create_user_rejects_registered_email Fixtures.toy_hash "2026-01-02" [Fixtures.carol]
           Fixtures.carol "other" eq_refl (or_introl eq_refl)).
Defined.

Lemma sample_new_email :
  forall u, In u [Fixtures.carol] -> User.email u <> "dave@example.com".
Proof. intros u [<- | []]. discriminate. Defined.

Lemma create_user_registers_new_email_witness :
  (user_crud.users_ok [Fixtures.carol] = true
   /\ forall u, In u [Fixtures.carol] -> User.email u <> "dave@example.com")
  /\ user_crud.create_user Fixtures.toy_hash "2026-01-02" [Fixtures.carol] "dave@example.com"
       "pw2"
     = (Return (User.mk 2 "dave@example.com" (Fixtures.toy_hash "pw2") true
                  "2026-01-02"),
        [Fixtures.carol] ++ [User.mk 2 "dave@example.com" (Fixtures.toy_hash "pw2") true
                      "2026-01-02"]).
Proof.
  split; [split; [reflexivity | exact sample_new_email]|].
  apply (proj1 (create_user_registers_new_email Fixtures.toy_hash "2026-01-02" [Fixtures.carol]
                  "dave@example.com" "pw2" eq_refl sample_new_email)).
Defined.

Lemma authenticate_user_checks_password_witness :
  user_crud.authenticate_user Fixtures.toy_verify [Fixtures.carol] "carol@example.com" "pw"
  = Return Fixtures.carol
  /\ Fixtures.toy_verify "pw" (User.hashed_password Fixtures.carol) = true.
Proof.
  split; [reflexivity|].
  apply (proj2 (proj2 (authenticate_user_checks_password Fixtures.toy_verify [Fixtures.carol]
                         "carol@example.com" "pw" Fixtures.carol eq_refl))).
Defined.

End PropertySamples.
